(** * WAF-Abuser: a shallow embedding of the reconnaissance pipeline

    The development follows the three source files of the repository:

    - [modules/utility.py]             (module [Utility])
    - [modules/subdomain_gathering.py] (module [SubdomainGathering])
    - [waf-abuser.py]                  (module [WafAbuser])

    Python values are modelled as the code has them: [str] as [string]
    (code points below 256), [Set[str]] as [gset string], Python [float] as
    the binary64 primitive floats, exceptions as an error result, and the
    file system, the session object and the emitted log lines as an
    explicit process state threaded through a small state-and-error
    monad.  The network, the clock and the third-party libraries are
    parameters of the model, and so is the order in which a loop meets
    the elements of a set where the output of the program shows it. *)

From Stdlib Require Import ZArith Floats Ascii String List Lia.
From stdpp Require Import base option list gmap sets strings pretty sorting.

Local Open Scope Z_scope.
Local Open Scope string_scope.
Local Set Warnings "-register-all,-inexact-float".

(** ** Exceptions and results *)

Inductive exn : Type :=
  | NameError (name : string)
  | ValueError
  | OverflowError
  | TypeError
  | KeyError (key : string)
  | IndexError
  | AttributeError
  | RuntimeError (msg : string)
  | FileNotFoundError (path : string)
  | ClientConnectorError (msg : string)
  | TimeoutError (msg : string)
  | SystemExit (code : Z)
  | OtherError (cls : string).

Inductive result (A : Type) : Type :=
  | Ok (a : A)
  | Raise (e : exn).

Arguments Ok {A} a.
Arguments Raise {A} e.

Definition is_ok {A} (r : result A) : bool :=
  match r with Ok _ => true | Raise _ => false end.

Definition result_bind {A B} (r : result A) (k : A -> result B) : result B :=
  match r with
  | Ok a => k a
  | Raise e => Raise e
  end.

(** [for x in l: ...] over a fallible body, left to right, stopping at the
    first exception. *)
Fixpoint result_map {A B} (f : A -> result B) (l : list A) : result (list B) :=
  match l with
  | [] => Ok []
  | x :: l' =>
      result_bind (f x) (fun y =>
      result_bind (result_map f l') (fun ys => Ok (y :: ys)))
  end.

(** ** Python [str] methods used by the program *)

Module PyStr.

Definition LF : ascii := ascii_of_nat 10.
Definition CR : ascii := ascii_of_nat 13.
Definition ESC : ascii := ascii_of_nat 27.

Definition nl : string := String LF EmptyString.

(** Line boundaries of [str.splitlines] among the code points below 256. *)
Definition is_linebreak (c : ascii) : bool :=
  let n := nat_of_ascii c in
  (n =? 10)%nat || (n =? 13)%nat || (n =? 11)%nat || (n =? 12)%nat ||
  (n =? 28)%nat || (n =? 29)%nat || (n =? 30)%nat || (n =? 133)%nat.

(** [str.isspace] on a single code point below 256. *)
Definition is_space (c : ascii) : bool :=
  let n := nat_of_ascii c in
  ((9 <=? n)%nat && (n <=? 13)%nat) || ((28 <=? n)%nat && (n <=? 32)%nat) ||
  (n =? 133)%nat || (n =? 160)%nat.

Definition rev_string (s : string) : string :=
  string_of_list_ascii (rev (list_ascii_of_string s)).

Fixpoint mem_char (c : ascii) (chars : string) : bool :=
  match chars with
  | EmptyString => false
  | String d chars' => Ascii.eqb c d || mem_char c chars'
  end.

Fixpoint drop_while (p : ascii -> bool) (s : string) : string :=
  match s with
  | EmptyString => EmptyString
  | String c s' => if p c then drop_while p s' else s
  end.

(** [s.lstrip(chars)], [s.rstrip(chars)], [s.strip(chars)] *)
Definition lstrip (chars s : string) : string :=
  drop_while (fun c => mem_char c chars) s.
Definition rstrip (chars s : string) : string :=
  rev_string (lstrip chars (rev_string s)).
Definition strip_chars (chars s : string) : string :=
  rstrip chars (lstrip chars s).

(** [s.strip()] *)
Definition strip (s : string) : string :=
  rev_string (drop_while is_space (rev_string (drop_while is_space s))).

(** [s.startswith(p)] *)
Definition startswith (s p : string) : bool := String.prefix p s.

(** [sub in s] *)
Fixpoint contains (sub s : string) : bool :=
  String.prefix sub s ||
  match s with
  | EmptyString => false
  | String _ s' => contains sub s'
  end.

(** [s.split(sep)] for a non-empty separator: [skip] counts the
    characters of a matched separator that are still to be consumed,
    [acc] is the current field, reversed. *)
Fixpoint split_go (sep : string) (skip : nat) (acc : list ascii) (s : string)
  : list string :=
  match s with
  | EmptyString => [string_of_list_ascii (rev acc)]
  | String c s' =>
      match skip with
      | S k => split_go sep k acc s'
      | O =>
          if String.prefix sep s
          then string_of_list_ascii (rev acc)
                 :: split_go sep (String.length sep - 1) [] s'
          else split_go sep O (c :: acc) s'
      end
  end.

Definition split (sep s : string) : list string := split_go sep O [] s.

(** Splitting into lines at the characters [brk]; [after_cr] remembers a
    carriage return so that a following line feed belongs to the same
    boundary.  A final line without terminator is kept, an empty one is
    not. *)
Fixpoint lines_go (brk : ascii -> bool) (after_cr : bool) (acc : list ascii)
         (s : string) : list string :=
  match s with
  | EmptyString =>
      match acc with
      | [] => []
      | _ => [string_of_list_ascii (rev acc)]
      end
  | String c s' =>
      if after_cr && Ascii.eqb c LF then lines_go brk false acc s'
      else if brk c
           then string_of_list_ascii (rev acc)
                  :: lines_go brk (Ascii.eqb c CR) [] s'
           else lines_go brk false (c :: acc) s'
  end.

(** [s.splitlines()] *)
Definition splitlines (s : string) : list string := lines_go is_linebreak false [] s.

(** [for line in f] on a text file, each line without its terminator. *)
Definition file_lines (s : string) : list string :=
  lines_go (fun c => Ascii.eqb c LF || Ascii.eqb c CR) false [] s.

(** [sep.join(l)] *)
Fixpoint join (sep : string) (l : list string) : string :=
  match l with
  | [] => EmptyString
  | [x] => x
  | x :: l' => x ++ sep ++ join sep l'
  end.

(** [sorted(l)] on strings: code-point order. *)
Definition str_le (a b : string) : Prop := String.leb a b = true.

#[global] Instance str_le_dec a b : Decision (str_le a b).
Proof. unfold str_le. apply _. Defined.

Definition sorted (l : list string) : list string := merge_sort str_le l.

(** [os.path.join(a, b)] *)
Definition os_path_join (a b : string) : string :=
  if String.prefix "/" b then b
  else if String.eqb a "" || String.prefix "/" (rev_string a) then a ++ b
       else a ++ "/" ++ b.

(** ["{:>15}".format(s)] *)
Definition rjust (width : nat) (s : string) : string :=
  string_of_list_ascii (repeat " "%char (width - String.length s)) ++ s.

End PyStr.

(** ** Python [float] and [int(x)] *)

(** [int(x)] on a float truncates toward zero; it raises [ValueError] on
    a NaN and [OverflowError] on an infinity. *)
Definition int_of_float (x : float) : result Z :=
  match Prim2SF x with
  | S754_zero _ => Ok 0
  | S754_infinity _ => Raise OverflowError
  | S754_nan => Raise ValueError
  | S754_finite s m e =>
      let mag := (if 0 <=? e then Z.pos m * 2 ^ e else Z.pos m / 2 ^ (- e))%Z in
      Ok (if s then - mag else mag)
  end.

(** [int(s)] on a string: blanks around it are dropped, a sign may lead,
    and the digits may be grouped by single underscores; anything else
    raises [ValueError]. *)
Definition digit_of (c : ascii) : option Z :=
  let n := nat_of_ascii c in
  if ((48 <=? n)%nat && (n <=? 57)%nat)%bool then Some (Z.of_nat n - 48)%Z else None.

Fixpoint int_digits (acc : Z) (after_digit : bool) (s : string) : option Z :=
  match s with
  | EmptyString => if after_digit then Some acc else None
  | String c s' =>
      match digit_of c with
      | Some d => int_digits (10 * acc + d)%Z true s'
      | None =>
          if (Ascii.eqb c "_" && after_digit)%bool then int_digits acc false s'
          else None
      end
  end.

Definition int_of_string (s : string) : result Z :=
  let '(negative, digits) :=
    match PyStr.strip s with
    | String "-" rest => (true, rest)
    | String "+" rest => (false, rest)
    | rest => (false, rest)
    end in
  match int_digits 0%Z false digits with
  | Some n => Ok (if negative then (- n)%Z else n)
  | None => Raise ValueError
  end.

(** ** The [ipaddress] data model *)

Inductive version : Type := IPv4 | IPv6.

Definition max_prefixlen (v : version) : Z :=
  match v with IPv4 => 32 | IPv6 => 128 end.

(** An address object: its family, its integer [_ip] and, for IPv6, its
    scope id.  Equality and hashing of address objects use all three. *)
Record IPAddress : Type := mkAddr {
  addr_version : version;
  addr_ip : Z;
  addr_scope : option string
}.

Record IPNetwork : Type := mkNet {
  net_version : version;
  network_address : Z;
  prefixlen : Z
}.

#[global] Instance version_eq_dec : EqDecision version.
Proof. solve_decision. Defined.

#[global] Instance IPAddress_eq_dec : EqDecision IPAddress.
Proof. solve_decision. Defined.

Definition addr_encode (a : IPAddress) : bool * Z * option string :=
  (match addr_version a with IPv4 => false | IPv6 => true end, addr_ip a, addr_scope a).

Definition addr_decode (t : bool * Z * option string) : IPAddress :=
  let '(b, n, s) := t in mkAddr (if b then IPv6 else IPv4) n s.

#[global] Instance IPAddress_countable : Countable IPAddress.
Proof.
  apply (inj_countable' addr_encode addr_decode).
  intros [[] n s]; reflexivity.
Defined.

Definition hostmask (n : IPNetwork) : Z :=
  2 ^ (max_prefixlen (net_version n) - prefixlen n) - 1.

Definition broadcast_address (n : IPNetwork) : Z :=
  Z.lor (network_address n) (hostmask n).

(** Iterating a network object yields every address from the network
    address to the broadcast address, both included. *)
Definition network_iter (n : IPNetwork) : list IPAddress :=
  map (fun x => mkAddr (net_version n) x None)
      (seqZ (network_address n) (broadcast_address n + 1 - network_address n)).

(** ** JSON values, as [resp.json()] returns them *)

Inductive json : Type :=
  | JNull
  | JBool (b : bool)
  | JNum (n : Z)
  | JStr (s : string)
  | JArr (items : list json)
  | JObj (fields : list (string * json)).

(** ** Process state and the computation monad *)

Inductive event : Type :=
  | EvLog (logger level msg : string)
  | EvPrint (line : string)
  | EvGet (url : string).

(** [files] is the file system (path to content), [events] the log lines,
    printed lines and page requests in the order they happened,
    [requests] the number of page requests made so far, [clock] the number
    of times the clock was read, [session] the [self.session] attribute
    of the utility object. *)
Inductive session_state : Type := NoSession | SessionOpen | SessionClosed.

Record World : Type := mkWorld {
  files : gmap string string;
  events : list event;
  requests : nat;
  clock : nat;
  session : session_state
}.

Definition M (A : Type) : Type := World -> result A * World.

Definition ret {A} (a : A) : M A := fun w => (Ok a, w).

Definition raise {A} (e : exn) : M A := fun w => (Raise e, w).

Definition bind {A B} (m : M A) (k : A -> M B) : M B :=
  fun w =>
    match m w with
    | (Ok a, w') => k a w'
    | (Raise e, w') => (Raise e, w')
    end.

Definition lift {A} (r : result A) : M A := fun w => (r, w).

(** [try: m  except (classes) as e: h e] *)
Definition try_except {A} (m : M A) (caught : exn -> bool) (h : exn -> M A) : M A :=
  fun w =>
    match m w with
    | (Ok a, w') => (Ok a, w')
    | (Raise e, w') => if caught e then h e w' else (Raise e, w')
    end.

(** [try: m  finally: f], also the shape of [async with]: the exit code
    runs on both paths and the exception of [m] is re-raised after it. *)
Definition finally {A} (m : M A) (f : M unit) : M A :=
  fun w =>
    match m w with
    | (r, w') =>
        match f w' with
        | (Ok _, w'') => (r, w'')
        | (Raise e, w'') => (Raise e, w'')
        end
    end.

Declare Scope py_scope.
Delimit Scope py_scope with py.
Notation "x <- m ;; k" := (bind m (fun x => k))
  (at level 100, m at next level, right associativity) : py_scope.
Notation "m ;;; k" := (bind m (fun _ => k))
  (at level 100, right associativity) : py_scope.
Local Open Scope py_scope.

Definition emit (e : event) : M unit :=
  fun w => (Ok tt, mkWorld (files w) (events w ++ [e])%list (requests w) (clock w) (session w)).

(** [with open(path, 'w') as f: f.write(content)] for a path whose
    directory exists. *)
Definition write_file (path content : string) : M unit :=
  fun w => (Ok tt, mkWorld (<[path := content]> (files w)) (events w)
                           (requests w) (clock w) (session w)).

(** [with open(os.path.join(dir, stem + rest), 'w') as f: f.write(content)]
    for a file named after [stem], a domain name, in a directory [dir]
    that exists.  The rest of the name is a time stamp of digits and a
    fixed suffix, so only [stem] can bring a path separator into the
    name; the file then lies in a directory below [dir] that the program
    never creates, [open] raises [FileNotFoundError] and nothing is
    written. *)
Definition write_file_named (dir stem rest content : string) : M unit :=
  let path := PyStr.os_path_join dir (stem ++ rest) in
  if PyStr.contains "/" stem then raise (FileNotFoundError path)
  else write_file path content.

Definition read_file (path : string) : M string :=
  fun w =>
    match files w !! path with
    | Some content => (Ok content, w)
    | None => (Raise (FileNotFoundError path), w)
    end.

Definition set_session (b : session_state) : M unit :=
  fun w => (Ok tt, mkWorld (files w) (events w) (requests w) (clock w) b).

Definition get_session : M session_state := fun w => (Ok (session w), w).

(** [for x in l: body x], threading the state, stopping at the first
    exception. *)
Fixpoint for_each {A} (l : list A) (body : A -> M unit) : M unit :=
  match l with
  | [] => ret tt
  | x :: l' => body x ;;; for_each l' body
  end.

(** [acc = init; for x in l: acc = body acc x] *)
Fixpoint fold_M {A S} (body : S -> A -> M S) (l : list A) (acc : S) : M S :=
  match l with
  | [] => ret acc
  | x :: l' => acc' <- body acc x ;; fold_M body l' acc'
  end.

(** Global name lookup of a module: the names bound at module level, then
    the builtins; anything else is a [NameError]. *)
Definition load_global (module_names builtins : list string) (name : string) : M unit :=
  if bool_decide (name ∈ module_names) || bool_decide (name ∈ builtins)
  then ret tt
  else raise (NameError name).

(** The builtin names the three source files refer to. *)
Definition builtins : list string :=
  ["set"; "int"; "str"; "list"; "len"; "filter"; "sorted"; "open"; "print";
   "RuntimeError"; "KeyboardInterrupt"; "Exception"; "__name__"; "__file__"].

(** ** The outside of the program

    The network, the clock and the libraries the program imports.  None of
    them is code of the repository; each is a parameter. *)
Class Environment : Type := {
  (** [html_similarity.similarity(a, b, k)]: the score, or the exception
      the library raises on a document it cannot parse *)
  similarity : string -> string -> float -> result float;
  (** [ipaddress.ip_address] and [ipaddress.ip_network] *)
  ip_address : string -> result IPAddress;
  ip_network : string -> result IPNetwork;
  (** [tldextract]: the [domain] and [suffix] fields of the extraction *)
  tldextract : string -> result (string * string);
  (** the body served to the [n]-th page request, made to [https://url]
      with a timeout of 3 seconds, or the exception of the request *)
  page : nat -> string -> result string;
  (** the clock, formatted with [%Y%m%d_%H%M%S], at its [n]-th reading *)
  now : nat -> string;
  (** [json.dumps(v, indent=2)] *)
  json_dumps : json -> string;
  (** the [.text] of every [td] of class [col-md-4], by [BeautifulSoup] *)
  soup_cells : string -> list string;
  (** the four passive sources, per queried domain *)
  dnsdumpster_cookie : string -> result string;
  dnsdumpster_post : string -> string -> result string;
  certspotter_get : string -> result json;
  hackertarget_get : string -> result string;
  crtsh_get : string -> result json;
  (** the completion order of the five tasks gathered for a domain *)
  completion_order : string -> list nat;
  (** the text on standard input *)
  stdin : string
}.

(** [datetime.datetime.now().strftime("%Y%m%d_%H%M%S")] *)
Definition read_clock `{Environment} : M string :=
  fun w => (Ok (now (clock w)),
            mkWorld (files w) (events w) (requests w) (S (clock w)) (session w)).

(** * modules/utility.py *)

Module Utility.

(** The names bound at module level: the imports, [logger], the class
    and [main]. *)
Definition module_names : list string :=
  ["asyncio"; "ipaddress"; "logging"; "chain"; "List"; "Set"; "Tuple";
   "Optional"; "aiohttp"; "tldextract"; "similarity"; "Path"; "logger";
   "UtilityFunctions"; "main"].

(** The attributes [__init__] sets, as paths. *)
Record UtilityFunctions : Type := {
  cache_dir : string;
  data_dir : string
}.

Definition path_join (dir name : string) : string := dir ++ "/" ++ name.

Section WithEnvironment.
Context `{Environment}.

Definition __aenter__ : M unit := set_session SessionOpen.

Definition __aexit__ : M unit :=
  s <- get_session ;;
  match s with
  | NoSession => ret tt
  | _ => set_session SessionClosed
  end.

(** [self.session.get(f"https://{url}", ssl=False, timeout=3)] followed
    by [response.text()] *)
Definition session_get_text (url : string) : M string :=
  fun w =>
    match session w with
    | SessionOpen =>
        (page (requests w) url,
         mkWorld (files w) (events w ++ [EvGet ("https://" ++ url)])%list
                 (S (requests w)) (clock w) (session w))
    | _ => (Raise (RuntimeError "Session is closed"), w)
    end.

Definition connector_or_timeout (e : exn) : bool :=
  match e with
  | ClientConnectorError _ | TimeoutError _ => true
  | _ => false
  end.

Definition str_exn (e : exn) : string :=
  match e with
  | ClientConnectorError msg | TimeoutError msg => msg
  | _ => ""
  end.

Definition get_page_content (url : string) : M (option string) :=
  s <- get_session ;;
  match s with
  | NoSession =>
      raise (RuntimeError
               "Session not initialized. Use 'async with' to create an instance.")
  | _ =>
      try_except
        (text <- session_get_text url ;; ret (Some text))
        connector_or_timeout
        (fun e =>
           emit (EvLog "modules.utility" "INFO"
                       ("Skipped | Error with " ++ url ++ ": " ++ str_exn e)) ;;;
           ret None)
  end.

(** The truth value of an [Optional[str]]: [None] and the empty string
    are both false. *)
Definition truthy (content : option string) : bool :=
  match content with
  | None => false
  | Some "" => false
  | Some _ => true
  end.

Definition compare_two_pages (original_content check_url : string)
  : M (string * Z) :=
  check_content <- get_page_content check_url ;;
  if negb (truthy check_content) then ret (check_url, 0%Z)
  else
    ratio <- lift (similarity original_content (default "" check_content) 0.3%float) ;;
    similarity_score <- lift (int_of_float (PrimFloat.mul ratio 100%float)) ;;
    ret (check_url, similarity_score).

Definition parse_public_waf_ranges (self : UtilityFunctions) : M (list string) :=
  let waf_file := path_join (data_dir self) "PublicWAFs.txt" in
  load_global module_names builtins "aiofiles" ;;;
  content <- read_file waf_file ;;
  ret (map PyStr.strip (tail (PyStr.splitlines content))).

(** Lines 53 and 54: the set of every address of every listed network,
    then the candidates whose address is not in it. *)
Definition exclude_listed (waf_ips_with_cidr : list string)
           (ips_to_check : gset string) : result (gset string) :=
  result_bind (result_map ip_network waf_ips_with_cidr) (fun nets =>
  let all_waf_ips : gset IPAddress :=
    list_to_set (concat (map network_iter nets)) in
  result_bind
    (result_map
       (fun ip => result_bind (ip_address ip) (fun a =>
                  Ok (if bool_decide (a ∈ all_waf_ips) then [] else [ip])))
       (elements ips_to_check))
    (fun kept => Ok (list_to_set (concat kept)))).

Definition filter_out_waf_ips (self : UtilityFunctions)
           (ips_to_check : gset string) : M (gset string) :=
  waf_ips_with_cidr <- parse_public_waf_ranges self ;;
  lift (exclude_listed waf_ips_with_cidr ips_to_check).

(** The inner function of [get_top_domains]. *)
Definition extract_domain (domain : string) : result string :=
  result_bind (tldextract domain) (fun extracted =>
  Ok (fst extracted ++ "." ++ snd extracted)).

Definition get_top_domains (self : UtilityFunctions) (domains : list string)
  : M (list string) :=
  let domains := List.filter (fun d => negb (String.eqb d "")) domains in
  lift (result_map extract_domain domains).

End WithEnvironment.

End Utility.

(** * modules/subdomain_gathering.py *)

(** What Python does with a decoded JSON value: iteration, subscription by
    a string key, and the [str] methods called on an element. *)
Module PyJson.

Fixpoint assoc (key : string) (fields : list (string * json)) : option json :=
  match fields with
  | [] => None
  | (k, v) :: fields' => if String.eqb k key then Some v else assoc key fields'
  end.

(** [for x in v] *)
Definition iter (v : json) : result (list json) :=
  match v with
  | JArr items => Ok items
  | JObj fields => Ok (map (fun kv => JStr (fst kv)) fields)
  | JStr s => Ok (map (fun c => JStr (String c EmptyString)) (list_ascii_of_string s))
  | JNull | JBool _ | JNum _ => Raise TypeError
  end.

(** [v[key]] for a string [key] *)
Definition getitem (v : json) (key : string) : result json :=
  match v with
  | JObj fields =>
      match assoc key fields with
      | Some x => Ok x
      | None => Raise (KeyError key)
      end
  | _ => Raise TypeError
  end.

(** the receiver of a [str] method call *)
Definition as_str (v : json) : result string :=
  match v with
  | JStr s => Ok s
  | _ => Raise AttributeError
  end.

End PyJson.

Module SubdomainGathering.

(** The attribute [__init__] sets; [ensure_cache_dirs] creates the four
    log directories under it, which the flat file map does not record. *)
Record SubdomainGatherer : Type := {
  cache_dir : string
}.

Definition logger_name : string := "modules.subdomain_gathering".

Section WithEnvironment.
Context `{Environment}.

(** The name [get_top_domains] that the module imports from
    [modules.utility]. *)
Variable get_top_domains : list string -> result (list string).

Definition write_to_cache (self : SubdomainGatherer)
           (subdir domain response : string) (domains : list string) : M unit :=
  timestamp <- read_clock ;;
  let cache_path := PyStr.os_path_join (cache_dir self) subdir in
  write_file_named cache_path domain ("_" ++ timestamp ++ "_response.txt") response ;;;
  write_file_named cache_path domain ("_" ++ timestamp ++ "_domains.txt")
                   (PyStr.join PyStr.nl (PyStr.sorted domains)).

(** [l[1]] *)
Definition second (l : list string) : result string :=
  match l with
  | _ :: x :: _ => Ok x
  | _ => Raise IndexError
  end.

(** The cell text up to the first ["HTTP"], without the digits, blanks
    and dots around it. *)
Definition dnsdumpster_cell (text : string) : string :=
  PyStr.rstrip "." (PyStr.strip_chars "1234567890 ." (hd "" (PyStr.split "HTTP" text))).

Definition dnsdumpster_scraping (self : SubdomainGatherer) (domain : string)
  : M (list string) :=
  cookie <- lift (dnsdumpster_cookie domain) ;;
  csrf_token <- lift (second (PyStr.split "Set-Cookie: csrftoken=" cookie)) ;;
  response_text <- lift (dnsdumpster_post domain csrf_token) ;;
  let domains := map dnsdumpster_cell (soup_cells response_text) in
  write_to_cache self "dnsdumpster_req_logs" domain response_text domains ;;;
  ret domains.

(** [{dns_name.lstrip('*.') for item in response_json
                            for dns_name in item['dns_names']}] *)
Definition certspotter_domains (response_json : json) : result (gset string) :=
  result_bind (PyJson.iter response_json) (fun items =>
  result_bind
    (result_map
       (fun item =>
          result_bind (PyJson.getitem item "dns_names") (fun names =>
          result_bind (PyJson.iter names) (fun dns_names =>
          result_map
            (fun dns_name => result_bind (PyJson.as_str dns_name) (fun s =>
                             Ok (PyStr.lstrip "*." s)))
            dns_names)))
       items)
    (fun found => Ok (list_to_set (concat found)))).

Definition certspotter_scraping (self : SubdomainGatherer) (domain : string)
  : M (gset string) :=
  response_json <- lift (certspotter_get domain) ;;
  domains <- lift (certspotter_domains response_json) ;;
  write_to_cache self "certspotter_req_logs" domain (json_dumps response_json)
                 (elements domains) ;;;
  ret domains.

(** [{line.split(',')[0] for line in response_text.splitlines()}] *)
Definition hackertarget_domains (response_text : string) : gset string :=
  list_to_set (map (fun line => hd "" (PyStr.split "," line))
                   (PyStr.splitlines response_text)).

Definition hackertarget_scraping (self : SubdomainGatherer) (domain : string)
  : M (gset string) :=
  response_text <- lift (hackertarget_get domain) ;;
  if PyStr.contains "API count exceeded" response_text then
    emit (EvLog logger_name "WARNING"
            "SKIP HackerTarget | Daily Limit Exceeded. (Possible bypass: new IP or use hackertarget.com API Key)") ;;;
    ret ∅
  else
    let domains := hackertarget_domains response_text in
    write_to_cache self "hackertarget_req_logs" domain response_text
                   (elements domains) ;;;
    ret domains.

(** [{name for item in response_json
           for name in item['name_value'].split('\n')
           if not name.startswith('*.')}] *)
Definition crtsh_domains (response_json : json) : result (gset string) :=
  result_bind (PyJson.iter response_json) (fun items =>
  result_bind
    (result_map
       (fun item =>
          result_bind (PyJson.getitem item "name_value") (fun value =>
          result_bind (PyJson.as_str value) (fun s =>
          Ok (List.filter (fun name => negb (PyStr.startswith name "*."))
                          (PyStr.split PyStr.nl s)))))
       items)
    (fun found => Ok (list_to_set (concat found)))).

Definition crtsh_scraping (self : SubdomainGatherer) (domain : string)
  : M (gset string) :=
  response_json <- lift (crtsh_get domain) ;;
  domains <- lift (crtsh_domains response_json) ;;
  write_to_cache self "crtsh_req_logs" domain (json_dumps response_json)
                 (elements domains) ;;;
  ret domains.

Definition write_subdomain_results (self : SubdomainGatherer) (domain : string)
           (subdomains : gset string) : M unit :=
  timestamp <- read_clock ;;
  write_file_named (cache_dir self) domain ("_" ++ timestamp ++ "_subdomains.txt")
                   (PyStr.join PyStr.nl (PyStr.sorted (elements subdomains))).

(** The name of this file holds no domain: it lies in the cache
    directory itself. *)
Definition write_all_domains (self : SubdomainGatherer)
           (all_domains : gset string) : M unit :=
  timestamp <- read_clock ;;
  let filename := "ALL_DOMAINS_" ++ timestamp ++ ".txt" in
  write_file (PyStr.os_path_join (cache_dir self) filename)
             (PyStr.join PyStr.nl (PyStr.sorted (elements all_domains))).

(** [asyncio.gather] over the tasks, with the default
    [return_exceptions=False].
    The tasks complete in the order [order], followed by the tasks it
    does not name in their list order.  The first exception raised is
    propagated to the awaiting caller at once; what the tasks still
    pending at that point go on to do is not observed.  Without an
    exception the results come back in the order of [tasks]. *)
Fixpoint gather_go {A} (tasks : list (M A)) (order : list nat)
         (done : gmap nat A) : M (gmap nat A) :=
  match order with
  | [] => ret done
  | i :: order' =>
      match done !! i, tasks !! i with
      | None, Some task =>
          a <- task ;; gather_go tasks order' (<[i := a]> done)
      | _, _ => gather_go tasks order' done
      end
  end.

Definition gather {A} (order : list nat) (tasks : list (M A)) : M (list A) :=
  done <- gather_go tasks (order ++ seq 0 (length tasks))%list ∅ ;;
  ret (omap (fun i => done !! i) (seq 0 (length tasks))).

Definition fmap_M {A B} (f : A -> B) (m : M A) : M B :=
  a <- m ;; ret (f a).

(** The five awaitables of one domain; a list result is seen through
    [subdomains.update] as the set of its elements. *)
Definition tasks (self : SubdomainGatherer) (domain : string)
  : list (M (gset string)) :=
  [ fmap_M list_to_set (dnsdumpster_scraping self domain);
    certspotter_scraping self domain;
    hackertarget_scraping self domain;
    crtsh_scraping self domain;
    fmap_M list_to_set (lift (get_top_domains [domain])) ].

(** The body of [for domain in domains]. *)
Definition gather_one (self : SubdomainGatherer) (all_domains : gset string)
           (domain : string) : M (gset string) :=
  results <- gather (completion_order domain) (tasks self domain) ;;
  let subdomains := foldl (fun acc result => acc ∪ result) ∅ results in
  let subdomains := subdomains ∪ {[domain]} in
  let all_domains := all_domains ∪ subdomains in
  write_subdomain_results self domain subdomains ;;;
  ret all_domains.

Definition gather_subdomains (self : SubdomainGatherer) (domains : gset string)
  : M (gset string) :=
  all_domains <- fold_M (gather_one self) (elements domains) ∅ ;;
  write_all_domains self all_domains ;;;
  ret all_domains.

End WithEnvironment.

End SubdomainGathering.

(** * waf-abuser.py *)

Module WafAbuser.

(** [colorama.Fore] *)
Definition Fore_MAGENTA : string := String PyStr.ESC "[35m".
Definition Fore_GREEN : string := String PyStr.ESC "[32m".
Definition Fore_RESET : string := String PyStr.ESC "[39m".

Definition banner : string :=
  Fore_MAGENTA ++ PyStr.nl ++
  "        +-----------------------------+" ++ PyStr.nl ++
  "        |╦ ╦╔═╗╔═╗  ╔═╗╔╗ ╦ ╦╔═╗╔═╗╦═╗|" ++ PyStr.nl ++
  "        |║║║╠═╣╠╣   ╠═╣╠╩╗║ ║╚═╗║╣ ╠╦╝|" ++ PyStr.nl ++
  "        |╚╩╝╩ ╩╚    ╩ ╩╚═╝╚═╝╚═╝╚═╝╩╚═|" ++ PyStr.nl ++
  "        +-----------------------------+" ++ PyStr.nl ++
  "        " ++ Fore_RESET.

(** The options [argparse] finds on the command line, with the words
    that follow them: the name after [-d], the path after [-f], the text
    after [--similarity-rate], and whether [--domains-only] is there. *)
Record CommandLine : Type := {
  opt_domain : option string;
  opt_file : option string;
  opt_similarity_rate : option string;
  opt_domains_only : bool
}.

(** [file_domains] is the file object of [argparse.FileType('r')], seen
    as the text it yields. *)
Record Namespace : Type := {
  input_domain : option string;
  file_domains : option string;
  similarity_rate : Z;
  domains_only : bool
}.

(** [parser.error]: the usage message goes to the standard error stream,
    which the model does not record, and the process exits with status 2. *)
Definition parser_error {A} : M A := raise (SystemExit 2).

(** [argparse.FileType('r')] applied to the word after [-f]: ["-"] is the
    standard input, any other word a path to open for reading. *)
Definition file_type_r `{Environment} (path : string) : M string :=
  if String.eqb path "-" then ret stdin
  else try_except (read_file path) (fun _ => true) (fun _ => parser_error).

(** [-d] and [-f] form a required, mutually exclusive group;
    [--similarity-rate] has [type=int, default=70].  A group that is not
    met, a path that cannot be opened and a text that [int] refuses all
    end in [parser.error]. *)
Definition _parse_arguments `{Environment} (cl : CommandLine) : M Namespace :=
  match opt_domain cl, opt_file cl with
  | Some _, Some _ | None, None => parser_error
  | _, _ =>
      file <- match opt_file cl with
              | Some path => text <- file_type_r path ;; ret (Some text)
              | None => ret None
              end ;;
      rate <- match opt_similarity_rate cl with
              | Some text =>
                  match int_of_string text with
                  | Ok n => ret n
                  | Raise _ => parser_error
                  end
              | None => ret 70%Z
              end ;;
      ret {| input_domain := opt_domain cl;
             file_domains := file;
             similarity_rate := rate;
             domains_only := opt_domains_only cl |}
  end.

(** [project_dir] is [Path(__file__).parent.parent]. *)
Record WAFAbuser : Type := {
  args : Namespace;
  utility : Utility.UtilityFunctions;
  project_dir : string
}.

Definition info (msg : string) : M unit := emit (EvLog "WAFAbuser" "INFO" msg).
Definition warning (msg : string) : M unit := emit (EvLog "WAFAbuser" "WARNING" msg).

(** The logger is set to [INFO]: its [debug] calls emit nothing. *)

Definition get_input_domains (self : WAFAbuser) : gset string :=
  match file_domains (args self) with
  | Some text => list_to_set (map PyStr.strip (PyStr.file_lines text))
  | None =>
      match input_domain (args self) with
      | Some d => {[ d ]}
      | None => ∅
      end
  end.

(** [row_format.format(a, b)] with [row_format = "{:>15}" * 2] *)
Definition row_format (a b : string) : string :=
  PyStr.rjust 15 a ++ PyStr.rjust 15 b.

Section WithEnvironment.
Context `{Environment}.

(** The collaborators of the orchestrator: the two names it imports
    from [modules.subdomain_gathering] and [modules.ip_gathering], and
    the method [filter_out_waf_ips] of [self.utility]. *)
Variable subdomain_gathering : gset string -> M (gset string).
Variable ip_gathering : gset string -> M (gset string).
Variable filter_out_waf_ips :
  Utility.UtilityFunctions -> gset string -> M (gset string).

(** The order in which a [for] loop over a set object meets its elements:
    the order of the hash table, the same each time an unchanged set is
    iterated. *)
Variable names_order : gset string -> list string.
Variable rows_order : gset (string * Z) -> list (string * Z).

Definition find_subdomains (self : WAFAbuser) (input_domains : gset string)
  : M (gset string) :=
  info "1. Gathering subdomains" ;;;
  subdomain_gathering input_domains.

Definition find_ips (self : WAFAbuser) (subdomains : gset string)
  : M (gset string) :=
  info "2. Gathering IPs" ;;;
  ip_gathering subdomains.

Definition filter_ips (self : WAFAbuser) (ips : gset string) : M (gset string) :=
  info "3. Filtering out WAF IPs" ;;;
  filter_out_waf_ips (utility self) ips.

(** The body of [for ip in filtered_ips]. *)
Definition compare_one (self : WAFAbuser) (domain_content : string)
           (similarity_output : gset (string * Z)) (ip : string)
  : M (gset (string * Z)) :=
  result <- Utility.compare_two_pages domain_content ip ;;
  if (snd result >? similarity_rate (args self))%Z
  then ret (similarity_output ∪ {[ result ]})
  else ret similarity_output.

(** The body of [for domain in input_domains]. *)
Definition compare_domain (self : WAFAbuser) (filtered_ips : gset string)
           (similarity_output : gset (string * Z)) (domain : string)
  : M (gset (string * Z)) :=
  domain_content <- Utility.get_page_content domain ;;
  match domain_content with
  | None => ret similarity_output
  | Some content =>
      fold_M (compare_one self content) (elements filtered_ips) similarity_output
  end.

Definition compare_ips (self : WAFAbuser) (input_domains filtered_ips : gset string)
  : M (gset (string * Z)) :=
  info "4. Comparing found IPs with original domain" ;;;
  Utility.__aenter__ ;;;
  finally
    (fold_M (compare_domain self filtered_ips) (elements input_domains) ∅)
    Utility.__aexit__.

Definition report_row (r : string * Z) : string :=
  row_format (fst r) (pretty (snd r) ++ "%").

(** [output_dir.mkdir(exist_ok=True)] makes sure of the directory the
    report is written to. *)
Definition output_results (self : WAFAbuser) (similarity_output : gset (string * Z))
  : M unit :=
  if bool_decide (similarity_output = ∅) then
    warning ("5. Found 0 pages with similarity > "
               ++ pretty (similarity_rate (args self)) ++ "%") ;;;
    info "You can reduce the similarity percentage [--similarity_rate 70]"
  else
    info ("5. " ++ Fore_GREEN ++ "Found possible IPs:" ++ Fore_RESET) ;;;
    emit (EvPrint (row_format "IP" "Similarity")) ;;;
    for_each (rows_order similarity_output)
             (fun r => emit (EvPrint (report_row r))) ;;;
    let output_dir := PyStr.os_path_join (project_dir self) "output" in
    timestamp <- read_clock ;;
    let output_file :=
      PyStr.os_path_join output_dir ("possible_WAF_bypass_" ++ timestamp ++ ".txt") in
    write_file output_file
               (PyStr.join PyStr.nl (map report_row (rows_order similarity_output))).

Definition run (self : WAFAbuser) : M unit :=
  emit (EvPrint banner) ;;;
  let input_domains := get_input_domains self in
  subdomains <- find_subdomains self input_domains ;;
  if domains_only (args self) then
    info (Fore_GREEN ++ "Found " ++ pretty (size subdomains)
            ++ " domains/subdomains:" ++ Fore_RESET) ;;;
    for_each (names_order subdomains) (fun domain => emit (EvPrint domain)) ;;;
    info ("File output: " ++ PyStr.os_path_join (project_dir self) "cache")
  else
    ips <- find_ips self subdomains ;;
    filtered_ips <- filter_ips self ips ;;
    if bool_decide (filtered_ips = ∅) then
      info (Fore_GREEN ++ "Found 0 possible non-WAF IPs" ++ Fore_RESET)
    else
      similarity_output <- compare_ips self input_domains filtered_ips ;;
      output_results self similarity_output.

End WithEnvironment.

End WafAbuser.

(** * A concrete environment

    An instance of the outside world for running the program on concrete
    inputs: dotted-quad IPv4 literals with a numeric prefix length for the
    [ipaddress] parsers, and a similarity that tells equal documents from
    different ones. *)

Module Demo.

Definition digit_value (c : ascii) : option Z :=
  let n := nat_of_ascii c in
  if ((48 <=? n)%nat && (n <=? 57)%nat)%bool then Some (Z.of_nat n - 48)%Z else None.

Fixpoint decimal_go (acc : Z) (s : string) : option Z :=
  match s with
  | EmptyString => Some acc
  | String c s' =>
      match digit_value c with
      | Some d => decimal_go (10 * acc + d)%Z s'
      | None => None
      end
  end.

(** A non-empty run of decimal digits. *)
Definition decimal (s : string) : option Z :=
  match s with
  | EmptyString => None
  | _ => decimal_go 0%Z s
  end.

(** At most three digits, no leading zero, at most 255. *)
Definition octet (s : string) : option Z :=
  match decimal s with
  | Some n =>
      if ((String.length s <=? 3)%nat
          && negb ((1 <? String.length s)%nat && String.prefix "0" s)
          && (n <=? 255)%Z)%bool
      then Some n else None
  | None => None
  end.

Definition ipv4_int (s : string) : option Z :=
  match map octet (PyStr.split "." s) with
  | [Some a; Some b; Some c; Some d] =>
      Some (((a * 256 + b) * 256 + c) * 256 + d)%Z
  | _ => None
  end.

Definition ipv4_address (s : string) : result IPAddress :=
  match ipv4_int s with
  | Some n => Ok (mkAddr IPv4 n None)
  | None => Raise ValueError
  end.

(** [address/prefix], strict: no host bit may be set. *)
Definition ipv4_network (s : string) : result IPNetwork :=
  match PyStr.split "/" s with
  | [a] =>
      match ipv4_int a with
      | Some n => Ok (mkNet IPv4 n 32)
      | None => Raise ValueError
      end
  | [a; p] =>
      match ipv4_int a, decimal p with
      | Some n, Some len =>
          if ((len <=? 32)%Z && (Z.land n (2 ^ (32 - len) - 1) =? 0)%Z)%bool
          then Ok (mkNet IPv4 n len) else Raise ValueError
      | _, _ => Raise ValueError
      end
  | _ => Raise ValueError
  end.

(** The library finds no element tree in an empty document and raises. *)
Definition same_document (a b : string) (k : float) : result float :=
  if (String.eqb a "" || String.eqb b "")%bool then Raise AttributeError
  else Ok (if String.eqb a b then 1%float else 0%float).

(** The last two labels of a name, as its [domain] and [suffix]. *)
Definition last_two_labels (name : string) : result (string * string) :=
  match rev (PyStr.split "." name) with
  | suffix :: domain :: _ => Ok (domain, suffix)
  | _ => Ok (name, "")
  end.

(** CertSpotter answers with one issuance listing [certspotter domain],
    HackerTarget with the text [hackertarget domain], crt.sh with one
    certificate per name of [crtsh domain]; DNSDumpster finds nothing. *)
Definition env (pages : nat -> string -> result string)
           (certspotter : string -> result (list string))
           (hackertarget : string -> result string)
           (crtsh : string -> result (list string))
  : Environment :=
  {| similarity := same_document;
     ip_address := ipv4_address;
     ip_network := ipv4_network;
     tldextract := last_two_labels;
     page := pages;
     now := fun n => "20240101_00000" ++ pretty n;
     json_dumps := fun _ => "[...]";
     soup_cells := fun _ => [];
     dnsdumpster_cookie := fun _ => Ok "Set-Cookie: csrftoken=t0k3n";
     dnsdumpster_post := fun _ _ => Ok "<html></html>";
     certspotter_get := fun d =>
       result_bind (certspotter d) (fun names =>
       Ok (JArr [JObj [("id", JStr "1"); ("dns_names", JArr (map JStr names))]]));
     hackertarget_get := hackertarget;
     crtsh_get := fun d =>
       result_bind (crtsh d) (fun names =>
       Ok (JArr (map (fun name => JObj [("name_value", JStr name)]) names)));
     completion_order := fun _ => [3; 1; 0]%nat;
     stdin := "" |}.

Definition world0 : World := mkWorld ∅ [] 0 0 NoSession.

End Demo.

(** * Properties *)

(** ** The string methods on sample inputs *)

Example split_comma :
  PyStr.split "," "www.example.com,1.2.3.4" = ["www.example.com"; "1.2.3.4"].
Proof. reflexivity. Qed.

Example split_word :
  PyStr.split "HTTP" "a.example.comHTTP: nginx" = ["a.example.com"; ": nginx"].
Proof. reflexivity. Qed.

Example split_trailing : PyStr.split "," "a," = ["a"; ""].
Proof. reflexivity. Qed.

Example splitlines_crlf :
  PyStr.splitlines
    ("a" ++ String PyStr.CR PyStr.nl ++ "b" ++ PyStr.nl ++ PyStr.nl ++ "c" ++ PyStr.nl)
  = ["a"; "b"; ""; "c"].
Proof. reflexivity. Qed.

Example lstrip_wildcard : PyStr.lstrip "*." "*.example.com" = "example.com".
Proof. reflexivity. Qed.

Example strip_spaces : PyStr.strip "  10.0.0.0/8 " = "10.0.0.0/8".
Proof. reflexivity. Qed.

Example file_lines_blank :
  PyStr.file_lines ("example.com" ++ PyStr.nl ++ PyStr.nl ++ "example.org")
  = ["example.com"; ""; "example.org"].
Proof. reflexivity. Qed.

Example int_of_float_truncates :
  int_of_float (PrimFloat.mul 0.57%float 100%float) = Ok 56%Z.
Proof. vm_compute. reflexivity. Qed.

(** ** The WAF range filter *)

Definition scenario_B_utility : Utility.UtilityFunctions :=
  {| Utility.cache_dir := "cache"; Utility.data_dir := "data" |}.

Definition scenario_B_env : Environment :=
  Demo.env (fun _ _ => Raise (TimeoutError "timed out"))
           (fun _ => Ok []) (fun _ => Ok "") (fun _ => Ok []).

Definition scenario_B_world : World :=
  mkWorld {[ "data/PublicWAFs.txt" := "ranges" ++ PyStr.nl ++ "1.2.3.0/24" ++ PyStr.nl ]}
          [] 0 0 NoSession.

(** C10.  Every call of the range filter raises [NameError] for the name
    [aiofiles], whatever the candidates, the reference file, the state of
    the process and the behaviour of the address parsers; the state is left
    as it was, so no line is read and no candidate is examined. *)
Theorem filter_out_waf_ips_raises_NameError :
  forall (E : Environment) (self : Utility.UtilityFunctions)
         (ips_to_check : gset string) (w : World),
    Utility.filter_out_waf_ips self ips_to_check w = (Raise (NameError "aiofiles"), w).
Proof. intros E self ips w. reflexivity. Qed.

Lemma parse_public_waf_ranges_raises_NameError :
  forall (self : Utility.UtilityFunctions) (w : World),
    Utility.parse_public_waf_ranges self w = (Raise (NameError "aiofiles"), w).
Proof. intros self w. reflexivity. Qed.

Lemma result_map_ok {A B} (f : A -> result B) (g : A -> B) (l : list A) :
  (forall x, x ∈ l -> f x = Ok (g x)) ->
  result_map f l = Ok (map g l).
Proof.
  induction l as [|x l IH]; intros Hf; [reflexivity|].
  cbn. rewrite Hf by left. cbn.
  rewrite IH; [reflexivity|]. intros y Hy. apply Hf. right. exact Hy.
Qed.

(** The addresses a listed network contains: same family, no scope id,
    between the network address and the broadcast address. *)
Definition covers (n : IPNetwork) (a : IPAddress) : Prop :=
  addr_version a = net_version n
  /\ addr_scope a = None
  /\ (network_address n <= addr_ip a <= broadcast_address n)%Z.

Lemma network_iter_covers (n : IPNetwork) (a : IPAddress) :
  a ∈ network_iter n <-> covers n a.
Proof.
  unfold network_iter, covers.
  change (map ?f ?l) with (f <$> l).
  rewrite list_elem_of_fmap. split.
  - intros [x [-> Hx]]. apply elem_of_seqZ in Hx. cbn. repeat split; lia.
  - intros [Hv [Hs Hr]]. exists (addr_ip a). split.
    + destruct a as [v x s]. cbn in *. subst. reflexivity.
    + apply elem_of_seqZ. lia.
Qed.

Lemma elem_of_concat_map {A B} (f : A -> list B) (l : list A) (y : B) :
  y ∈ concat (map f l) <-> exists x, x ∈ l /\ y ∈ f x.
Proof.
  rewrite list_elem_of_In, in_concat. split.
  - intros [ys [Hys Hy]]. apply in_map_iff in Hys as [x [<- Hx]].
    exists x. rewrite !list_elem_of_In. tauto.
  - intros [x [Hx Hy]]. exists (f x). rewrite <- !list_elem_of_In.
    split; [|exact Hy]. apply list_elem_of_In, in_map, list_elem_of_In, Hx.
Qed.

Lemma result_map_inv {A B} (f : A -> result B) (l : list A) (ys : list B) :
  result_map f l = Ok ys -> forall x, x ∈ l -> exists y, f x = Ok y.
Proof.
  revert ys. induction l as [|a l IH]; intros ys Hmap x Hx; [inversion Hx|].
  cbn in Hmap. destruct (f a) as [b|e] eqn:Hfa; [|discriminate]. cbn in Hmap.
  destruct (result_map f l) as [bs|e] eqn:Hl; [|discriminate].
  apply elem_of_cons in Hx as [->|Hx]; [eauto|]. eapply IH; eauto.
Qed.

Lemma result_map_raises {A B} (f : A -> result B) (l : list A) (x : A) (e : exn) :
  x ∈ l -> f x = Raise e -> exists e', result_map f l = Raise e'.
Proof.
  intros Hx Hfx. induction l as [|a l IH]; [inversion Hx|].
  cbn. apply elem_of_cons in Hx as [<-|Hx].
  - rewrite Hfx. eauto.
  - destruct (f a) as [b|e0]; cbn; [|eauto].
    destruct (IH Hx) as [e' ->]. eauto.
Qed.

Section Membership.
Context `{Environment}.

(** What the candidate [ip] contributes to the comprehension of line 54
    once the listed networks are [nets]. *)
Definition kept_if_outside (nets : list IPNetwork) (ip : string) : list string :=
  match ip_address ip with
  | Ok a =>
      if bool_decide (a ∈ (list_to_set (concat (map network_iter nets)) : gset IPAddress))
      then [] else [ip]
  | Raise _ => []
  end.

Lemma exclude_listed_parsed (cidrs : list string) (nets : list IPNetwork)
      (ips : gset string) :
  result_map ip_network cidrs = Ok nets ->
  (forall ip, ip ∈ ips -> is_ok (ip_address ip) = true) ->
  Utility.exclude_listed cidrs ips
  = Ok (list_to_set (concat (map (kept_if_outside nets) (elements ips)))).
Proof.
  intros Hnets Hips. unfold Utility.exclude_listed. rewrite Hnets. cbn.
  rewrite (result_map_ok _ (kept_if_outside nets)); [reflexivity|].
  intros ip Hip. apply elem_of_elements, Hips in Hip.
  unfold kept_if_outside. destruct (ip_address ip); [reflexivity | discriminate].
Qed.

Lemma kept_if_outside_spec (nets : list IPNetwork) (ip host : string) :
  host ∈ kept_if_outside nets ip
  <-> host = ip
      /\ exists a, ip_address ip = Ok a
                   /\ ~ (exists n, n ∈ nets /\ covers n a).
Proof.
  unfold kept_if_outside. destruct (ip_address ip) as [a|e].
  - assert (Hall : a ∈ (list_to_set (concat (map network_iter nets)) : gset IPAddress)
                   <-> exists n, n ∈ nets /\ covers n a).
    { rewrite elem_of_list_to_set, elem_of_concat_map.
      split; intros [n [Hn Ha]]; exists n; (split; [exact Hn|]);
        apply network_iter_covers; exact Ha. }
    destruct (bool_decide_reflect
                (a ∈ (list_to_set (concat (map network_iter nets)) : gset IPAddress)))
      as [Hin|Hout].
    + split; [intros Hh; inversion Hh|].
      intros [_ [a' [[= <-] Hnot]]]. exfalso. apply Hnot, Hall, Hin.
    + rewrite list_elem_of_singleton. split.
      * intros ->. split; [reflexivity|]. exists a. split; [reflexivity|].
        intros Hcov. apply Hout, Hall, Hcov.
      * tauto.
  - split; [intros Hh; inversion Hh|]. intros [_ [a [Ha _]]]. discriminate Ha.
Qed.

End Membership.

Lemma exclude_listed_keeps_exactly_uncovered_aux `{Environment}
      (cidrs : list string) (nets : list IPNetwork) (ips : gset string) :
  result_map ip_network cidrs = Ok nets ->
  (forall ip, ip ∈ ips -> is_ok (ip_address ip) = true) ->
  exists kept : gset string,
    Utility.exclude_listed cidrs ips = Ok kept
    /\ (forall ip, ip ∈ kept <->
                   ip ∈ ips
                   /\ exists a, ip_address ip = Ok a
                                /\ ~ (exists n, n ∈ nets /\ covers n a)).
Proof.
  intros Hnets Hips. eexists.
  split; [apply (exclude_listed_parsed cidrs nets ips Hnets Hips)|].
  intros ip. rewrite elem_of_list_to_set, elem_of_concat_map. split.
  - intros [x [Hx Hin]]. apply kept_if_outside_spec in Hin as [-> Ha].
    split; [apply elem_of_elements, Hx | exact Ha].
  - intros [Hip Ha]. exists ip. split; [apply elem_of_elements, Hip|].
    apply kept_if_outside_spec. split; [reflexivity | exact Ha].
Qed.

Lemma scenario_B_candidates_parse (ip : string) :
  ip ∈ ({[ "1.2.3.5"; "5.6.7.8" ]} : gset string) ->
  is_ok (ip_address (Environment := scenario_B_env) ip) = true.
Proof.
  intros Hip. apply elem_of_union in Hip as [Hip|Hip];
    apply elem_of_singleton in Hip; subst ip; reflexivity.
Qed.


(** C1, on scenario B of the specification: with the reference list
    [1.2.3.0/24] under a header line and the candidates 1.2.3.5 and
    5.6.7.8, the filter raises [NameError] instead of returning the set
    with 5.6.7.8 alone, although its two lines after the loader compute
    exactly that set from the listed range. *)
Theorem filter_out_waf_ips_scenario_B :
  Utility.filter_out_waf_ips (H := scenario_B_env) scenario_B_utility
     {[ "1.2.3.5"; "5.6.7.8" ]} scenario_B_world
  = (Raise (NameError "aiofiles"), scenario_B_world)
  /\ Utility.exclude_listed (H := scenario_B_env) ["1.2.3.0/24"] {[ "1.2.3.5"; "5.6.7.8" ]}
     = Ok {[ "5.6.7.8" ]}.
Proof.
  split; [reflexivity|].
  destruct (exclude_listed_keeps_exactly_uncovered_aux (H := scenario_B_env)
              ["1.2.3.0/24"] [mkNet IPv4 16909056 24] {[ "1.2.3.5"; "5.6.7.8" ]})
    as [kept [Hrun Hchar]];
    [reflexivity | exact scenario_B_candidates_parse |].
  rewrite Hrun. f_equal. apply set_eq. intros ip. rewrite Hchar.
  rewrite elem_of_union, !elem_of_singleton. split.
  - intros [[-> | ->] [a [Ha Hnot]]]; [|reflexivity].
    exfalso. apply Hnot. exists (mkNet IPv4 16909056 24).
    split; [apply list_elem_of_singleton; reflexivity|].
    vm_compute in Ha. inversion Ha; subst a.
    repeat split; vm_compute; discriminate.
  - intros ->. split; [right; reflexivity|].
    exists (mkAddr IPv4 84281096 None). split; [reflexivity|].
    intros [n [Hn [_ [_ Hr]]]]. apply list_elem_of_singleton in Hn. subst n.
    vm_compute in Hr. destruct Hr as [_ Hr]. apply Hr. reflexivity.
Qed.

(** ** The similarity scorer *)

(** The state after a page request to [url] that failed with [e] and was
    logged and skipped by [get_page_content]. *)
Definition after_skipped_request (url : string) (e : exn) (w : World) : World :=
  mkWorld (files w)
          ((events w ++ [EvGet ("https://" ++ url)]) ++
           [EvLog "modules.utility" "INFO"
                  ("Skipped | Error with " ++ url ++ ": " ++ Utility.str_exn e)])%list
          (S (requests w)) (clock w) (session w).

(** The state after a page request to [url] that was answered, or that
    raised an exception [get_page_content] does not catch. *)
Definition after_request (url : string) (w : World) : World :=
  mkWorld (files w) (events w ++ [EvGet ("https://" ++ url)])%list
          (S (requests w)) (clock w) (session w).

(** [int(similarity(original, content, k=0.3) * 100)] *)
Definition similarity_score `{Environment} (original_content content : string) : result Z :=
  result_bind (similarity original_content content 0.3%float) (fun ratio =>
  int_of_float (PrimFloat.mul ratio 100%float)).

Section Scorer.
Context `{Environment}.

Lemma get_page_content_skips (url : string) (e : exn) (w : World) :
  session w = SessionOpen ->
  page (requests w) url = Raise e ->
  Utility.connector_or_timeout e = true ->
  Utility.get_page_content url w = (Ok None, after_skipped_request url e w).
Proof.
  intros Hs Hp Hc. destruct w as [fs ev rq ck ss]; cbn in Hs, Hp; subst ss.
  unfold Utility.get_page_content, bind, get_session, try_except,
    Utility.session_get_text.
  cbn. rewrite Hp. cbn. rewrite Hc. reflexivity.
Qed.

Lemma get_page_content_answers (url text : string) (w : World) :
  session w = SessionOpen ->
  page (requests w) url = Ok text ->
  Utility.get_page_content url w = (Ok (Some text), after_request url w).
Proof.
  intros Hs Hp. destruct w as [fs ev rq ck ss]; cbn in Hs, Hp; subst ss.
  unfold Utility.get_page_content, bind, get_session, try_except,
    Utility.session_get_text.
  cbn. rewrite Hp. reflexivity.
Qed.

Lemma get_page_content_propagates (url : string) (e : exn) (w : World) :
  session w = SessionOpen ->
  page (requests w) url = Raise e ->
  Utility.connector_or_timeout e = false ->
  Utility.get_page_content url w = (Raise e, after_request url w).
Proof.
  intros Hs Hp Hc. destruct w as [fs ev rq ck ss]; cbn in Hs, Hp; subst ss.
  unfold Utility.get_page_content, bind, get_session, try_except,
    Utility.session_get_text.
  cbn. rewrite Hp. cbn. rewrite Hc. reflexivity.
Qed.

Lemma compare_two_pages_skipped (original check_url : string) (e : exn) (w : World) :
  session w = SessionOpen ->
  page (requests w) check_url = Raise e ->
  Utility.connector_or_timeout e = true ->
  Utility.compare_two_pages original check_url w
  = (Ok (check_url, 0%Z), after_skipped_request check_url e w).
Proof.
  intros Hs Hp Hc. unfold Utility.compare_two_pages, bind.
  rewrite (get_page_content_skips _ e) by assumption. reflexivity.
Qed.

Lemma compare_two_pages_propagates (original check_url : string) (e : exn) (w : World) :
  session w = SessionOpen ->
  page (requests w) check_url = Raise e ->
  Utility.connector_or_timeout e = false ->
  Utility.compare_two_pages original check_url w = (Raise e, after_request check_url w).
Proof.
  intros Hs Hp Hc. unfold Utility.compare_two_pages, bind.
  rewrite (get_page_content_propagates _ e) by assumption. reflexivity.
Qed.

Lemma compare_two_pages_empty (original check_url : string) (w : World) :
  session w = SessionOpen ->
  page (requests w) check_url = Ok "" ->
  Utility.compare_two_pages original check_url w
  = (Ok (check_url, 0%Z), after_request check_url w).
Proof.
  intros Hs Hp. unfold Utility.compare_two_pages, bind.
  rewrite (get_page_content_answers _ "") by assumption. reflexivity.
Qed.

Lemma compare_two_pages_scored (original check_url content : string) (w : World) :
  session w = SessionOpen ->
  page (requests w) check_url = Ok content ->
  content <> "" ->
  Utility.compare_two_pages original check_url w
  = (match similarity_score original content with
     | Ok score => Ok (check_url, score)
     | Raise e => Raise e
     end, after_request check_url w).
Proof.
  intros Hs Hp Hne. unfold Utility.compare_two_pages, bind.
  rewrite (get_page_content_answers _ content) by assumption.
  destruct content as [|c content]; [congruence|]. cbn.
  unfold lift, similarity_score, result_bind.
  destruct (similarity _ _ _) as [ratio|e]; [|reflexivity].
  destruct (int_of_float _); reflexivity.
Qed.

Lemma compare_one_unfold (self : WafAbuser.WAFAbuser) (original ip : string)
      (out : gset (string * Z)) (w w' : World) (r : string * Z) :
  Utility.compare_two_pages original ip w = (Ok r, w') ->
  WafAbuser.compare_one self original out ip w
  = (Ok (if (snd r >? WafAbuser.similarity_rate (WafAbuser.args self))%Z
         then out ∪ {[ r ]} else out), w').
Proof.
  intros Hc. unfold WafAbuser.compare_one, bind. rewrite Hc.
  destruct (_ >? _)%Z; reflexivity.
Qed.

Lemma compare_one_raises (self : WafAbuser.WAFAbuser) (original ip : string)
      (out : gset (string * Z)) (w w' : World) (e : exn) :
  Utility.compare_two_pages original ip w = (Raise e, w') ->
  WafAbuser.compare_one self original out ip w = (Raise e, w').
Proof. intros Hc. unfold WafAbuser.compare_one, bind. rewrite Hc. reflexivity. Qed.

Lemma __aexit___returns (w : World) :
  exists w', Utility.__aexit__ w = (Ok tt, w').
Proof.
  unfold Utility.__aexit__, bind, get_session.
  destruct (session w); eexists; reflexivity.
Qed.

End Scorer.

(** The score of a candidate whose request was answered with [content]:
    what [compare_two_pages] computes after the fetch. *)
Definition page_score `{Environment} (original_content content : string) : result Z :=
  if String.eqb content "" then Ok 0%Z else similarity_score original_content content.

Definition pair_with {A} (url : string) (r : result A) : result (string * A) :=
  match r with
  | Ok a => Ok (url, a)
  | Raise e => Raise e
  end.

Lemma compare_two_pages_answered `{Environment}
      (original check_url content : string) (w : World) :
  session w = SessionOpen ->
  page (requests w) check_url = Ok content ->
  Utility.compare_two_pages original check_url w
  = (pair_with check_url (page_score original content), after_request check_url w).
Proof.
  intros Hs Hp. unfold page_score.
  destruct (String.eqb_spec content "") as [-> | Hne].
  - apply compare_two_pages_empty; assumption.
  - apply compare_two_pages_scored; assumption.
Qed.

(** A process whose utility object has an open session, as inside the
    [async with] of [compare_ips]. *)
Definition open_world : World := mkWorld ∅ [] 0 0 SessionOpen.

Definition abuser (rate : Z) : WafAbuser.WAFAbuser :=
  {| WafAbuser.args :=
       {| WafAbuser.input_domain := Some "example.com";
          WafAbuser.file_domains := None;
          WafAbuser.similarity_rate := rate;
          WafAbuser.domains_only := false |};
     WafAbuser.utility := scenario_B_utility;
     WafAbuser.project_dir := "/opt/waf-abuser" |}.

(** Scenario D: every page request times out. *)
Definition scenario_D_env : Environment :=
  Demo.env (fun _ _ => Raise (TimeoutError "timed out"))
           (fun _ => Ok []) (fun _ => Ok "") (fun _ => Ok []).

(** Scenario C: every host serves the same document. *)
Definition scenario_C_env : Environment :=
  Demo.env (fun _ _ => Ok "<html><body>origin</body></html>")
           (fun _ => Ok []) (fun _ => Ok "") (fun _ => Ok []).

(** Every host serves an empty body. *)
Definition empty_body_env : Environment :=
  Demo.env (fun _ _ => Ok "")
           (fun _ => Ok []) (fun _ => Ok "") (fun _ => Ok []).

(** The baseline is served; the server of the candidate 5.6.7.8 drops the
    connection, which [aiohttp] reports as [ServerDisconnectedError]. *)
Definition server_disconnect_env : Environment :=
  Demo.env (fun _ url =>
              if String.eqb url "5.6.7.8"
              then Raise (OtherError "ServerDisconnectedError")
              else Ok "<html><body>origin</body></html>")
           (fun _ => Ok []) (fun _ => Ok "") (fun _ => Ok []).

(** C3, counterexample: the request for the candidate fails with a server
    disconnect.  The scorer does not return the score 0: the exception
    leaves [compare_two_pages], and with it [compare_ips], which returns
    no set at all. *)
Lemma server_disconnect_leaves_the_scorer :
  page (Environment := server_disconnect_env) 0%nat "5.6.7.8"
  = Raise (OtherError "ServerDisconnectedError")
  /\ fst (Utility.compare_two_pages (H := server_disconnect_env)
            "<html><body>origin</body></html>" "5.6.7.8" open_world)
     = Raise (OtherError "ServerDisconnectedError")
  /\ fst (Utility.compare_two_pages (H := server_disconnect_env)
            "<html><body>origin</body></html>" "5.6.7.8" open_world)
     <> Ok ("5.6.7.8", 0%Z)
  /\ fst (WafAbuser.compare_ips (H := server_disconnect_env) (abuser 70)
            {[ "example.com" ]} {[ "5.6.7.8" ]} Demo.world0)
     = Raise (OtherError "ServerDisconnectedError").
Proof.
  split; [reflexivity|]. split; [vm_compute; reflexivity|].
  split; [vm_compute; discriminate | vm_compute; reflexivity].
Qed.

(** C3, amended.  When the request for the candidate's content fails with
    one of the two exceptions [get_page_content] catches, a connection
    error or a timeout, [compare_two_pages] returns the score 0 for the
    candidate without raising, and for every threshold from 0 to 100 the
    comparison leaves the confirmed set as it was.  When it fails with any
    other exception, that exception leaves [compare_two_pages] and the
    comparison of the candidate. *)
Theorem fetch_failure_scores_zero_and_excludes :
  forall (E : Environment) (self : WafAbuser.WAFAbuser) (original ip : string)
         (e : exn) (confirmed : gset (string * Z)) (w : World),
    session w = SessionOpen ->
    page (requests w) ip = Raise e ->
    (Utility.connector_or_timeout e = true ->
     Utility.compare_two_pages original ip w
     = (Ok (ip, 0%Z), after_skipped_request ip e w)
     /\ ((0 <= WafAbuser.similarity_rate (WafAbuser.args self) <= 100)%Z ->
         WafAbuser.compare_one self original confirmed ip w
         = (Ok confirmed, after_skipped_request ip e w)))
    /\ (Utility.connector_or_timeout e = false ->
        Utility.compare_two_pages original ip w = (Raise e, after_request ip w)
        /\ WafAbuser.compare_one self original confirmed ip w
           = (Raise e, after_request ip w)).
Proof.
  intros E self original ip e confirmed w Hs Hp. split; intros Hc.
  - pose proof (compare_two_pages_skipped original ip e w Hs Hp Hc) as Hcmp.
    split; [exact Hcmp|]. intros Hrate.
    rewrite (compare_one_unfold self original ip confirmed w _ _ Hcmp). cbn.
    destruct (Z.gtb_spec 0 (WafAbuser.similarity_rate (WafAbuser.args self)));
      [lia | reflexivity].
  - pose proof (compare_two_pages_propagates original ip e w Hs Hp Hc) as Hcmp.
    split; [exact Hcmp|].
    apply (compare_one_raises self original ip confirmed w _ e Hcmp).
Qed.

Lemma fetch_failure_scores_zero_and_excludes_witness :
  (Utility.compare_two_pages (H := scenario_D_env) "<html>origin</html>" "5.6.7.8" open_world
   = (Ok ("5.6.7.8", 0%Z),
      after_skipped_request "5.6.7.8" (TimeoutError "timed out") open_world)
   /\ WafAbuser.compare_one (H := scenario_D_env) (abuser 0) "<html>origin</html>"
        ∅ "5.6.7.8" open_world
      = (Ok ∅, after_skipped_request "5.6.7.8" (TimeoutError "timed out") open_world))
  /\ WafAbuser.compare_one (H := server_disconnect_env) (abuser 0) "<html>origin</html>"
       ∅ "5.6.7.8" open_world
     = (Raise (OtherError "ServerDisconnectedError"), after_request "5.6.7.8" open_world).
Proof.
  split.
  - destruct (fetch_failure_scores_zero_and_excludes scenario_D_env (abuser 0)
                "<html>origin</html>" "5.6.7.8" (TimeoutError "timed out") ∅ open_world)
      as [Hcaught _]; [reflexivity | reflexivity |].
    destruct (Hcaught eq_refl) as [Hzero Hexcl].
    split; [exact Hzero | apply Hexcl; cbn; lia].
  - destruct (fetch_failure_scores_zero_and_excludes server_disconnect_env (abuser 0)
                "<html>origin</html>" "5.6.7.8" (OtherError "ServerDisconnectedError")
                ∅ open_world)
      as [_ Hother]; [reflexivity | reflexivity |].
    apply (Hother eq_refl).
Defined.

(** *** The confirmed set *)

Lemma fold_M_unions {A C} `{Countable C} (P : World -> Prop)
      (body : gset C -> A -> M (gset C)) (g : A -> gset C) (l : list A) :
  (forall x acc w, x ∈ l -> P w ->
     exists w', body acc x w = (Ok (acc ∪ g x), w') /\ P w') ->
  forall acc w, P w ->
    exists w', fold_M body l acc w = (Ok (acc ∪ ⋃ (g <$> l)), w') /\ P w'.
Proof.
  induction l as [|x l IH]; intros Hbody acc w HP.
  - exists w. split; [|exact HP]. cbn. unfold ret.
    rewrite (right_id_L ∅ (∪)). reflexivity.
  - destruct (Hbody x acc w) as [w1 [Hx HP1]]; [left | exact HP |].
    destruct (IH (fun y acc' w' Hy => Hbody y acc' w' (list_elem_of_further _ _ _ Hy))
                 (acc ∪ g x) w1 HP1) as [w2 [Hl HP2]].
    exists w2. split; [|exact HP2]. cbn. unfold bind. rewrite Hx, Hl.
    rewrite (assoc_L (∪)). reflexivity.
Qed.

(** What a comparison adds for a candidate scored [score]. *)
Definition confirmed_at (rate : Z) (ip : string) (score : Z) : gset (string * Z) :=
  if (score >? rate)%Z then {[ (ip, score) ]} else ∅.

Section Confirmation.
Context `{Environment}.
Variable self : WafAbuser.WAFAbuser.
Variable serves : string -> result string.
Variable score : string -> string -> Z.

Hypothesis page_serves : forall n url, page n url = serves url.
Hypothesis failures_caught :
  forall url e, serves url = Raise e -> Utility.connector_or_timeout e = true.

(** The score of the candidate [ip] against [baseline]. *)
Definition candidate_score (baseline ip : string) : Z :=
  match serves ip with
  | Ok content => score baseline content
  | Raise _ => 0%Z
  end.

Definition confirmed_for (baseline ip : string) : gset (string * Z) :=
  confirmed_at (WafAbuser.similarity_rate (WafAbuser.args self)) ip
               (candidate_score baseline ip).

Definition confirmed_by (filtered_ips : gset string) (domain : string)
  : gset (string * Z) :=
  match serves domain with
  | Ok baseline => ⋃ (confirmed_for baseline <$> elements filtered_ips)
  | Raise _ => ∅
  end.

Lemma compare_one_stable (baseline ip : string) (acc : gset (string * Z)) (w : World) :
  (forall content, serves ip = Ok content ->
                   page_score baseline content = Ok (score baseline content)) ->
  session w = SessionOpen ->
  exists w', WafAbuser.compare_one self baseline acc ip w
             = (Ok (acc ∪ confirmed_for baseline ip), w')
             /\ session w' = SessionOpen.
Proof.
  intros Hscore Hs. unfold confirmed_for, confirmed_at, candidate_score.
  pose proof (page_serves (requests w) ip) as Hp.
  destruct (serves ip) as [content|e] eqn:Hip.
  - pose proof (compare_two_pages_answered baseline ip content w Hs Hp) as Hcmp.
    rewrite (Hscore content eq_refl) in Hcmp. cbn in Hcmp.
    exists (after_request ip w). split; [|exact Hs].
    rewrite (compare_one_unfold self baseline ip acc w _ _ Hcmp). cbn.
    destruct (_ >? _)%Z; [reflexivity|]. rewrite (right_id_L ∅ (∪)). reflexivity.
  - pose proof (compare_two_pages_skipped baseline ip e w Hs Hp
                  (failures_caught ip e Hip)) as Hcmp.
    exists (after_skipped_request ip e w). split; [|exact Hs].
    rewrite (compare_one_unfold self baseline ip acc w _ _ Hcmp). cbn.
    destruct (_ >? _)%Z; [reflexivity|]. rewrite (right_id_L ∅ (∪)). reflexivity.
Qed.

Lemma compare_domain_stable (filtered_ips : gset string) (domain : string)
      (acc : gset (string * Z)) (w : World) :
  (forall baseline ip content,
      serves domain = Ok baseline -> ip ∈ filtered_ips -> serves ip = Ok content ->
      page_score baseline content = Ok (score baseline content)) ->
  session w = SessionOpen ->
  exists w', WafAbuser.compare_domain self filtered_ips acc domain w
             = (Ok (acc ∪ confirmed_by filtered_ips domain), w')
             /\ session w' = SessionOpen.
Proof.
  intros Hscore Hs. unfold WafAbuser.compare_domain, bind, confirmed_by.
  pose proof (page_serves (requests w) domain) as Hp.
  destruct (serves domain) as [baseline|e] eqn:Hd.
  - rewrite (get_page_content_answers domain baseline w Hs Hp).
    apply (fold_M_unions (fun w => session w = SessionOpen)
             (WafAbuser.compare_one self baseline) (confirmed_for baseline)
             (elements filtered_ips)); [|exact Hs].
    intros ip acc' w' Hip Hs'. apply compare_one_stable; [|exact Hs'].
    intros content Hc. apply (Hscore baseline ip content eq_refl); [|exact Hc].
    apply elem_of_elements, Hip.
  - rewrite (get_page_content_skips domain e w Hs Hp (failures_caught domain e Hd)).
    exists (after_skipped_request domain e w). split; [|exact Hs].
    unfold ret. rewrite (right_id_L ∅ (∪)). reflexivity.
Qed.

Lemma compare_ips_stable (input_domains filtered_ips : gset string) (w : World) :
  (forall domain baseline ip content,
      domain ∈ input_domains -> serves domain = Ok baseline ->
      ip ∈ filtered_ips -> serves ip = Ok content ->
      page_score baseline content = Ok (score baseline content)) ->
  fst (WafAbuser.compare_ips self input_domains filtered_ips w)
  = Ok (⋃ (confirmed_by filtered_ips <$> elements input_domains)).
Proof.
  intros Hscore. unfold WafAbuser.compare_ips, WafAbuser.info, bind, emit,
    Utility.__aenter__, set_session, finally. cbn [files events requests clock session].
  assert (Hbody : forall domain acc w',
             domain ∈ elements input_domains -> session w' = SessionOpen ->
             exists w'', WafAbuser.compare_domain self filtered_ips acc domain w'
                         = (Ok (acc ∪ confirmed_by filtered_ips domain), w'')
                         /\ session w'' = SessionOpen).
  { intros domain acc w' Hd Hs'. apply compare_domain_stable; [|exact Hs'].
    intros baseline ip content Hb Hip Hc.
    apply (Hscore domain baseline ip content); try assumption.
    apply elem_of_elements, Hd. }
  match goal with
  | |- context [fold_M ?body ?l ?a0 ?w0] =>
      destruct (fold_M_unions (fun w => session w = SessionOpen) body
                  (confirmed_by filtered_ips) l Hbody a0 w0 eq_refl)
        as [w1 [Hfold _]]
  end.
  rewrite Hfold. destruct (__aexit___returns w1) as [w2 ->]. cbn.
  rewrite (left_id_L ∅ (∪)). reflexivity.
Qed.

Lemma elem_of_confirmed_by (filtered_ips : gset string) (domain ip : string) (s : Z) :
  (ip, s) ∈ confirmed_by filtered_ips domain
  <-> ip ∈ filtered_ips
      /\ (s > WafAbuser.similarity_rate (WafAbuser.args self))%Z
      /\ exists baseline, serves domain = Ok baseline
                          /\ s = candidate_score baseline ip.
Proof.
  unfold confirmed_by. destruct (serves domain) as [baseline|e].
  - rewrite elem_of_union_list. split.
    + intros [X [HX Hin]]. apply list_elem_of_fmap in HX as [ip' [-> Hip']].
      unfold confirmed_for, confirmed_at in Hin.
      destruct (Z.gtb_spec (candidate_score baseline ip')
                           (WafAbuser.similarity_rate (WafAbuser.args self)));
        [|inversion Hin].
      apply elem_of_singleton in Hin. inversion Hin; subst.
      split; [apply elem_of_elements, Hip'|]. split; [lia|].
      exists baseline. split; reflexivity.
    + intros [Hip [Hgt [baseline' [[= <-] ->]]]].
      exists (confirmed_for baseline ip). split.
      * apply list_elem_of_fmap. exists ip. split; [reflexivity|].
        apply elem_of_elements, Hip.
      * unfold confirmed_for, confirmed_at.
        destruct (Z.gtb_spec (candidate_score baseline ip)
                             (WafAbuser.similarity_rate (WafAbuser.args self)));
          [apply elem_of_singleton; reflexivity | lia].
  - split; [intros Hin; inversion Hin|].
    intros [_ [_ [baseline [Hb _]]]]. discriminate Hb.
Qed.

End Confirmation.

(** The command lines whose input group is met and whose file, if any,
    can be opened in the state [w]. *)
Definition input_opens (cl : WafAbuser.CommandLine) (w : World) : Prop :=
  match WafAbuser.opt_domain cl, WafAbuser.opt_file cl with
  | Some _, None => True
  | None, Some path => path = "-" \/ is_Some (files w !! path)
  | _, _ => False
  end.

Lemma file_type_r_opens `{Environment} (path : string) (w : World) :
  path = "-" \/ is_Some (files w !! path) ->
  exists text, WafAbuser.file_type_r path w = (Ok text, w).
Proof.
  intros Hopen. unfold WafAbuser.file_type_r.
  destruct (String.eqb_spec path "-") as [Heq|Hne]; [eexists; reflexivity|].
  destruct Hopen as [Heq | [text Htext]]; [contradiction|].
  exists text. unfold try_except, read_file. rewrite Htext. reflexivity.
Qed.

Lemma _parse_arguments_returns `{Environment} (cl : WafAbuser.CommandLine)
      (rate : Z) (w : World) :
  input_opens cl w ->
  match WafAbuser.opt_similarity_rate cl with
  | Some text => int_of_string text = Ok rate
  | None => rate = 70%Z
  end ->
  exists ns, WafAbuser._parse_arguments cl w = (Ok ns, w)
             /\ WafAbuser.similarity_rate ns = rate
             /\ WafAbuser.input_domain ns = WafAbuser.opt_domain cl
             /\ WafAbuser.domains_only ns = WafAbuser.opt_domains_only cl.
Proof.
  intros Hopen Hrate. unfold WafAbuser._parse_arguments, input_opens in *.
  destruct (WafAbuser.opt_domain cl) as [d|], (WafAbuser.opt_file cl) as [path|];
    try contradiction.
  - unfold bind, ret. cbn.
    destruct (WafAbuser.opt_similarity_rate cl) as [text|].
    + rewrite Hrate. eexists. split; [reflexivity|]. cbn. auto.
    + subst rate. eexists. split; [reflexivity|]. cbn. auto.
  - unfold bind at 1. unfold bind at 1.
    destruct (file_type_r_opens path w Hopen) as [content ->].
    unfold bind, ret. cbn.
    destruct (WafAbuser.opt_similarity_rate cl) as [text|].
    + rewrite Hrate. eexists. split; [reflexivity|]. cbn. auto.
    + subst rate. eexists. split; [reflexivity|]. cbn. auto.
Qed.

Lemma fold_M_accumulates {A S} (Q : S -> Prop) (body : S -> A -> M S) (l : list A) :
  (forall x acc w acc' w', x ∈ l -> Q acc -> body acc x w = (Ok acc', w') -> Q acc') ->
  forall acc w acc' w', Q acc -> fold_M body l acc w = (Ok acc', w') -> Q acc'.
Proof.
  induction l as [|x l IH]; intros Hbody acc w acc' w' HQ Hrun.
  - cbn in Hrun. inversion Hrun; subst. exact HQ.
  - cbn in Hrun. unfold bind in Hrun.
    destruct (body acc x w) as [[acc1|e] w1] eqn:Hx; [|discriminate].
    apply (IH (fun y a v a' v' Hy => Hbody y a v a' v' (list_elem_of_further _ _ _ Hy))
              acc1 w1 acc' w'); [|exact Hrun].
    apply (Hbody x acc w acc1 w1); [left | exact HQ | exact Hx].
Qed.

Section Threshold.
Context `{Environment}.
Variable self : WafAbuser.WAFAbuser.

(** Every pair of the set names a candidate and a score above the
    threshold. *)
Definition above_threshold (filtered_ips : gset string) (confirmed : gset (string * Z))
  : Prop :=
  forall ip s, (ip, s) ∈ confirmed ->
               ip ∈ filtered_ips
               /\ (s > WafAbuser.similarity_rate (WafAbuser.args self))%Z.

Lemma compare_two_pages_url (original check_url : string) (w w' : World)
      (r : string * Z) :
  Utility.compare_two_pages original check_url w = (Ok r, w') -> fst r = check_url.
Proof.
  unfold Utility.compare_two_pages, bind.
  destruct (Utility.get_page_content check_url w) as [[content|e] w1]; [|discriminate].
  destruct (negb (Utility.truthy content)); [intros [= <- _]; reflexivity|].
  unfold lift. destruct (similarity _ _ _) as [ratio|e]; [|discriminate].
  destruct (int_of_float _) as [score|e]; [|discriminate].
  intros [= <- _]. reflexivity.
Qed.

Lemma compare_one_above (filtered_ips : gset string) (original ip : string)
      (acc acc' : gset (string * Z)) (w w' : World) :
  ip ∈ filtered_ips ->
  above_threshold filtered_ips acc ->
  WafAbuser.compare_one self original acc ip w = (Ok acc', w') ->
  above_threshold filtered_ips acc'.
Proof.
  intros Hip Hacc Hrun. unfold WafAbuser.compare_one, bind in Hrun.
  destruct (Utility.compare_two_pages original ip w) as [[r|e] w1] eqn:Hcmp;
    [|discriminate].
  apply compare_two_pages_url in Hcmp.
  destruct (Z.gtb_spec (snd r) (WafAbuser.similarity_rate (WafAbuser.args self)));
    inversion Hrun; subst; [|exact Hacc].
  intros ip' s Hin. apply elem_of_union in Hin as [Hin|Hin]; [apply Hacc, Hin|].
  apply elem_of_singleton in Hin. subst r. cbn [fst snd] in *.
  split; [exact Hip|lia].
Qed.

Lemma compare_domain_above (filtered_ips : gset string) (domain : string)
      (acc acc' : gset (string * Z)) (w w' : World) :
  above_threshold filtered_ips acc ->
  WafAbuser.compare_domain self filtered_ips acc domain w = (Ok acc', w') ->
  above_threshold filtered_ips acc'.
Proof.
  intros Hacc Hrun. unfold WafAbuser.compare_domain, bind in Hrun.
  destruct (Utility.get_page_content domain w) as [[[content|]|e] w1]; try discriminate.
  - apply (fold_M_accumulates (above_threshold filtered_ips)
             (WafAbuser.compare_one self content) (elements filtered_ips))
      with (acc := acc) (w := w1) (w' := w'); [|exact Hacc|exact Hrun].
    intros ip a v a' v' Hip Ha Hone.
    apply (compare_one_above filtered_ips content ip a a' v v'); [|exact Ha|exact Hone].
    apply elem_of_elements, Hip.
  - inversion Hrun; subst. exact Hacc.
Qed.

Lemma compare_ips_above (input_domains filtered_ips : gset string)
      (confirmed : gset (string * Z)) (w : World) :
  fst (WafAbuser.compare_ips self input_domains filtered_ips w) = Ok confirmed ->
  above_threshold filtered_ips confirmed.
Proof.
  unfold WafAbuser.compare_ips, WafAbuser.info, bind, emit,
    Utility.__aenter__, set_session, finally. cbn [files events requests clock session].
  match goal with
  | |- context [fold_M ?body ?l ?a0 ?w0] =>
      pose proof (fold_M_accumulates (above_threshold filtered_ips) body l) as Hfold;
      destruct (fold_M body l a0 w0) as [[acc|e] w1] eqn:Hrun
  end.
  - destruct (__aexit___returns w1) as [w2 ->]. cbn. intros [= <-].
    eapply Hfold; [|intros ip s Hin; apply elem_of_empty in Hin; contradiction|exact Hrun].
    intros domain a v a' v' _ Ha Hdom.
    apply (compare_domain_above filtered_ips domain a a' v v' Ha Hdom).
  - destruct (__aexit___returns w1) as [w2 ->]. cbn. discriminate.
Qed.

End Threshold.

(** C4.  Whatever the network does, every pair of the set [compare_ips]
    returns names a candidate and a score strictly greater than the
    threshold: a candidate whose score equals the threshold or lies below
    it is never added.  Under a network that serves each host the same
    way throughout the run, a body or a failure that [get_page_content]
    catches, [compare_ips] returns, and the set holds the pair of a
    candidate and a score exactly when the score is strictly greater than
    the threshold and is the score of that candidate against the content
    of an input domain that answered.  The parser returns for every
    command line whose input group is met and whose file opens, with the
    threshold 70 when [--similarity-rate] is not given and the integer it
    denotes when it is. *)
Theorem confirmed_iff_score_above_threshold :
  forall (E : Environment) (self : WafAbuser.WAFAbuser)
         (input_domains filtered_ips : gset string) (w : World),
    (forall confirmed,
        fst (WafAbuser.compare_ips self input_domains filtered_ips w) = Ok confirmed ->
        forall ip s,
          (ip, s) ∈ confirmed ->
          ip ∈ filtered_ips
          /\ (s > WafAbuser.similarity_rate (WafAbuser.args self))%Z)
    /\ (forall (serves : string -> result string) (score : string -> string -> Z),
           (forall n url, page n url = serves url) ->
           (forall url e, serves url = Raise e ->
                          Utility.connector_or_timeout e = true) ->
           (forall domain baseline ip content,
               domain ∈ input_domains -> serves domain = Ok baseline ->
               ip ∈ filtered_ips -> serves ip = Ok content ->
               page_score baseline content = Ok (score baseline content)) ->
           exists confirmed,
             fst (WafAbuser.compare_ips self input_domains filtered_ips w) = Ok confirmed
             /\ forall ip s,
                  (ip, s) ∈ confirmed
                  <-> ip ∈ filtered_ips
                      /\ (s > WafAbuser.similarity_rate (WafAbuser.args self))%Z
                      /\ exists domain baseline,
                           domain ∈ input_domains
                           /\ serves domain = Ok baseline
                           /\ s = match serves ip with
                                  | Ok content => score baseline content
                                  | Raise _ => 0%Z
                                  end)
    /\ (forall (cl : WafAbuser.CommandLine) (w0 : World),
           input_opens cl w0 ->
           (WafAbuser.opt_similarity_rate cl = None ->
            exists ns, WafAbuser._parse_arguments cl w0 = (Ok ns, w0)
                       /\ WafAbuser.similarity_rate ns = 70%Z)
           /\ (forall text rate,
                  WafAbuser.opt_similarity_rate cl = Some text ->
                  int_of_string text = Ok rate ->
                  exists ns, WafAbuser._parse_arguments cl w0 = (Ok ns, w0)
                             /\ WafAbuser.similarity_rate ns = rate)).
Proof.
  intros E self input_domains filtered_ips w. split; [|split].
  - intros confirmed Hrun.
    apply (compare_ips_above self input_domains filtered_ips confirmed w Hrun).
  - intros serves score Hpage Hcaught Hscore. eexists. split.
    + apply (compare_ips_stable self serves score Hpage Hcaught
               input_domains filtered_ips w Hscore).
    + intros ip s. rewrite elem_of_union_list. split.
      * intros [X [HX Hin]]. apply list_elem_of_fmap in HX as [domain [-> Hd]].
        apply elem_of_confirmed_by in Hin as [Hip [Hgt [baseline [Hb Hs]]]].
        split; [exact Hip|]. split; [exact Hgt|].
        exists domain, baseline. split; [apply elem_of_elements, Hd|].
        split; [exact Hb | exact Hs].
      * intros [Hip [Hgt [domain [baseline [Hd [Hb Hs]]]]]].
        exists (confirmed_by self serves score filtered_ips domain). split.
        -- apply list_elem_of_fmap. exists domain. split; [reflexivity|].
           apply elem_of_elements, Hd.
        -- apply elem_of_confirmed_by. split; [exact Hip|]. split; [exact Hgt|].
           exists baseline. split; [exact Hb | exact Hs].
  - intros cl w0 Hopen. split.
    + intros Hnone.
      destruct (_parse_arguments_returns cl 70%Z w0 Hopen) as [ns [Hns [Hrate _]]];
        [rewrite Hnone; reflexivity|].
      exists ns. split; assumption.
    + intros text rate Hsome Hint.
      destruct (_parse_arguments_returns cl rate w0 Hopen) as [ns [Hns [Hrate _]]];
        [rewrite Hsome; exact Hint|].
      exists ns. split; assumption.
Qed.

Definition only_domain_given : WafAbuser.CommandLine :=
  {| WafAbuser.opt_domain := Some "example.com";
     WafAbuser.opt_file := None;
     WafAbuser.opt_similarity_rate := None;
     WafAbuser.opt_domains_only := false |}.

Definition origin_document : string := "<html><body>origin</body></html>".

(** Scenario C of the specification: the candidate serves the baseline's
    document and scores 100; with the threshold 70 it is confirmed, with
    the threshold 100 it is not, and a command line without
    [--similarity-rate] gives the threshold 70. *)
Lemma confirmed_iff_score_above_threshold_witness :
  (exists confirmed,
      fst (WafAbuser.compare_ips (H := scenario_C_env) (abuser 70)
             {[ "example.com" ]} {[ "5.6.7.8" ]} Demo.world0) = Ok confirmed
      /\ ("5.6.7.8", 100%Z) ∈ confirmed)
  /\ (exists confirmed,
         fst (WafAbuser.compare_ips (H := scenario_C_env) (abuser 100)
                {[ "example.com" ]} {[ "5.6.7.8" ]} Demo.world0) = Ok confirmed
         /\ ("5.6.7.8", 100%Z) ∉ confirmed)
  /\ exists ns,
       WafAbuser._parse_arguments (H := scenario_C_env) only_domain_given Demo.world0
       = (Ok ns, Demo.world0)
       /\ WafAbuser.similarity_rate ns = 70%Z.
Proof.
  assert (Hscore : forall domain baseline ip content : string,
             domain ∈ ({[ "example.com" ]} : gset string) ->
             Ok origin_document = Ok baseline ->
             ip ∈ ({[ "5.6.7.8" ]} : gset string) ->
             Ok origin_document = Ok content ->
             page_score (H := scenario_C_env) baseline content = Ok 100%Z).
  { intros domain baseline ip content _ [= <-] _ [= <-]. vm_compute. reflexivity. }
  split; [|split].
  - destruct (confirmed_iff_score_above_threshold scenario_C_env (abuser 70)
                {[ "example.com" ]} {[ "5.6.7.8" ]} Demo.world0) as [_ [Hstable _]].
    destruct (Hstable (fun _ => Ok origin_document) (fun _ _ => 100%Z))
      as [confirmed [Hrun Hin]];
      [reflexivity | discriminate | exact Hscore |].
    exists confirmed. split; [exact Hrun|]. apply Hin.
    split; [apply elem_of_singleton; reflexivity|]. split; [cbn; lia|].
    exists "example.com", origin_document.
    split; [apply elem_of_singleton; reflexivity|]. split; reflexivity.
  - destruct (confirmed_iff_score_above_threshold scenario_C_env (abuser 100)
                {[ "example.com" ]} {[ "5.6.7.8" ]} Demo.world0) as [Habove [Hstable _]].
    destruct (Hstable (fun _ => Ok origin_document) (fun _ _ => 100%Z))
      as [confirmed [Hrun _]];
      [reflexivity | discriminate | exact Hscore |].
    exists confirmed. split; [exact Hrun|]. intros Hmem.
    apply (Habove confirmed Hrun) in Hmem as [_ Hgt]. cbn in Hgt. lia.
  - destruct (confirmed_iff_score_above_threshold scenario_C_env (abuser 70)
                {[ "example.com" ]} {[ "5.6.7.8" ]} Demo.world0) as [_ [_ Hparse]].
    destruct (Hparse only_domain_given Demo.world0 I) as [Hdefault _].
    apply Hdefault. reflexivity.
Defined.

(** Scenario C of the specification, through [compare_ips]: the candidate
    serves the baseline's document; with threshold 70 it is confirmed with
    score 100, with threshold 100 it is not. *)
Example scenario_C_thresholds :
  fst (WafAbuser.compare_ips (H := scenario_C_env) (abuser 70)
         {[ "example.com" ]} {[ "5.6.7.8" ]} Demo.world0)
  = Ok {[ ("5.6.7.8", 100%Z) ]}
  /\ fst (WafAbuser.compare_ips (H := scenario_C_env) (abuser 100)
            {[ "example.com" ]} {[ "5.6.7.8" ]} Demo.world0)
     = Ok ∅.
Proof. split; vm_compute; reflexivity. Qed.

(** The score alone of what [compare_two_pages] returns. *)
Definition score_of (r : result (string * Z)) : result Z :=
  match r with
  | Ok found => Ok (snd found)
  | Raise e => Raise e
  end.

(** C7, counterexample: a baseline with an empty body compared with a
    candidate serving the same empty body scores 0, not 100: the scorer
    returns 0 for an empty candidate before it compares anything. *)
Lemma identical_empty_content_scores_zero :
  page (Environment := empty_body_env) 0%nat "5.6.7.8" = Ok ""
  /\ fst (Utility.compare_two_pages (H := empty_body_env) "" "5.6.7.8" open_world)
     = Ok ("5.6.7.8", 0%Z)
  /\ fst (Utility.compare_two_pages (H := empty_body_env) "" "5.6.7.8" open_world)
     <> Ok ("5.6.7.8", 100%Z).
Proof. repeat split; try reflexivity. vm_compute. discriminate. Qed.

(** C7, amended.  Two comparisons of one baseline with candidates that
    serve the same content end the same way, whatever the two candidates,
    the two states of the process and the number of requests made before:
    both return the same score, or both raise the same exception, the one
    of the library or of the conversion to an integer.  For every
    non-empty content on which the library's similarity of the document
    with itself is 1.0, a candidate serving the baseline's content scores
    100. *)
Theorem score_is_function_of_contents :
  forall (E : Environment) (original content ip ip' : string) (w w' : World),
    session w = SessionOpen ->
    session w' = SessionOpen ->
    page (requests w) ip = Ok content ->
    page (requests w') ip' = Ok content ->
    score_of (fst (Utility.compare_two_pages original ip w))
    = score_of (fst (Utility.compare_two_pages original ip' w'))
    /\ (content <> "" ->
        similarity content content 0.3%float = Ok 1%float ->
        fst (Utility.compare_two_pages content ip w) = Ok (ip, 100%Z)).
Proof.
  intros E original content ip ip' w w' Hs Hs' Hp Hp'. split.
  - rewrite (compare_two_pages_answered original ip content w Hs Hp).
    rewrite (compare_two_pages_answered original ip' content w' Hs' Hp').
    cbn. destruct (page_score original content); reflexivity.
  - intros Hne Hsim.
    rewrite (compare_two_pages_scored content ip content w Hs Hp Hne).
    unfold similarity_score. rewrite Hsim. vm_compute. reflexivity.
Qed.

Lemma score_is_function_of_contents_witness :
  score_of (fst (Utility.compare_two_pages (H := scenario_C_env)
                   origin_document "5.6.7.8" open_world))
  = score_of (fst (Utility.compare_two_pages (H := scenario_C_env)
                     origin_document "9.9.9.9" (after_request "5.6.7.8" open_world)))
  /\ fst (Utility.compare_two_pages (H := scenario_C_env)
            origin_document "5.6.7.8" open_world)
     = Ok ("5.6.7.8", 100%Z).
Proof.
  destruct (score_is_function_of_contents scenario_C_env
              origin_document origin_document "5.6.7.8" "9.9.9.9"
              open_world (after_request "5.6.7.8" open_world))
    as [Hfun Hsame]; [reflexivity | reflexivity | reflexivity | reflexivity |].
  split; [exact Hfun | apply Hsame; [discriminate | reflexivity]].
Defined.

(** ** Normalising the names a source returns *)

Lemma result_map_Forall2 {A B C} (f : A -> result B) (g : C -> B)
      (l : list A) (l' : list C) :
  Forall2 (fun x y => f x = Ok (g y)) l l' ->
  result_map f l = Ok (map g l').
Proof.
  induction 1 as [|x y l l' Hxy _ IH]; [reflexivity|].
  cbn. rewrite Hxy. cbn. rewrite IH. reflexivity.
Qed.

Lemma concat_map_map {A B} (f : A -> B) (ls : list (list A)) :
  concat (map (map f) ls) = map f (concat ls).
Proof.
  induction ls as [|l ls IH]; [reflexivity|].
  cbn. rewrite IH, map_app. reflexivity.
Qed.

Lemma concat_map_filter {A} (p : A -> bool) (ls : list (list A)) :
  concat (map (List.filter p) ls) = List.filter p (concat ls).
Proof.
  induction ls as [|l ls IH]; [reflexivity|].
  cbn. rewrite IH, List.filter_app. reflexivity.
Qed.

(** A CertSpotter response in which issuance [i] lists the names
    [names !! i], whatever other fields the issuance objects carry. *)
Definition lists_dns_names (items : list json) (names : list (list string)) : Prop :=
  Forall2 (fun item ns => PyJson.getitem item "dns_names" = Ok (JArr (map JStr ns)))
          items names.

(** A crt.sh response in which certificate [i] has the [name_value] text
    [values !! i]. *)
Definition has_name_values (items : list json) (values : list string) : Prop :=
  Forall2 (fun item v => PyJson.getitem item "name_value" = Ok (JStr v)) items values.

Lemma certspotter_domains_listed (items : list json) (names : list (list string)) :
  lists_dns_names items names ->
  SubdomainGathering.certspotter_domains (JArr items)
  = Ok (list_to_set (map (PyStr.lstrip "*.") (concat names))).
Proof.
  intros Hwf. unfold SubdomainGathering.certspotter_domains. cbn.
  rewrite (result_map_Forall2 _ (map (PyStr.lstrip "*.")) items names).
  - cbn. rewrite concat_map_map. reflexivity.
  - eapply Forall2_impl; [exact Hwf|].
    intros item ns Hitem. cbn beta. rewrite Hitem. cbn.
    rewrite (result_map_ok _ (fun v => match v with
                                       | JStr s => PyStr.lstrip "*." s
                                       | _ => ""
                                       end)).
    + cbn. rewrite map_map. reflexivity.
    + intros v Hv. apply list_elem_of_fmap in Hv as [s [-> _]]. reflexivity.
Qed.

Lemma crtsh_domains_listed (items : list json) (values : list string) :
  has_name_values items values ->
  SubdomainGathering.crtsh_domains (JArr items)
  = Ok (list_to_set
          (List.filter (fun name => negb (PyStr.startswith name "*."))
                       (concat (map (PyStr.split PyStr.nl) values)))).
Proof.
  intros Hwf. unfold SubdomainGathering.crtsh_domains. cbn.
  rewrite (result_map_Forall2 _
             (fun v => List.filter (fun name => negb (PyStr.startswith name "*."))
                                   (PyStr.split PyStr.nl v)) items values).
  - cbn. rewrite <- concat_map_filter, map_map. reflexivity.
  - eapply Forall2_impl; [exact Hwf|].
    intros item v Hitem. cbn beta. rewrite Hitem. reflexivity.
Qed.

Lemma lstrip_wildcard_prefix (rest : string) :
  PyStr.lstrip "*." ("*." ++ rest) = PyStr.lstrip "*." rest.
Proof. reflexivity. Qed.

Lemma lstrip_bare_name (c : ascii) (rest : string) :
  c <> "*"%char -> c <> "."%char ->
  PyStr.lstrip "*." (String c rest) = String c rest.
Proof.
  intros Hstar Hdot. unfold PyStr.lstrip. cbn.
  destruct (Ascii.eqb_spec c "*"); [contradiction|].
  destruct (Ascii.eqb_spec c "."); [contradiction|]. reflexivity.
Qed.

Definition gatherer : SubdomainGathering.SubdomainGatherer :=
  {| SubdomainGathering.cache_dir := "/opt/waf-abuser/cache" |}.

(** crt.sh knows one certificate, for the wildcard name only. *)
Definition wildcard_only_env : Environment :=
  Demo.env (fun _ _ => Raise (TimeoutError "timed out"))
           (fun _ => Ok []) (fun _ => Ok "") (fun _ => Ok ["*.example.com"]).

(** C5, counterexample: a crt.sh response whose only name is
    [*.example.com] yields an empty hostname set; the bare name
    [example.com] is not kept. *)
Lemma crtsh_discards_wildcard_name :
  crtsh_get (Environment := wildcard_only_env) "example.com"
  = Ok (JArr [JObj [("name_value", JStr "*.example.com")]])
  /\ fst (SubdomainGathering.crtsh_scraping (H := wildcard_only_env) gatherer
            "example.com" Demo.world0) = Ok ∅
  /\ ~ (exists found : gset string,
           fst (SubdomainGathering.crtsh_scraping (H := wildcard_only_env) gatherer
                  "example.com" Demo.world0) = Ok found
           /\ "example.com" ∈ found).
Proof.
  assert (Hrun : fst (SubdomainGathering.crtsh_scraping (H := wildcard_only_env)
                        gatherer "example.com" Demo.world0) = Ok ∅)
    by (vm_compute; reflexivity).
  split; [reflexivity|]. split; [exact Hrun|].
  intros [found [Hfound Hin]]. rewrite Hrun in Hfound.
  inversion Hfound; subst found. set_solver.
Qed.

(** C5, amended.  From a CertSpotter response every listed name
    contributes the name without its leading [*] and [.] characters, so a
    wildcard name contributes the bare name it decorates, and nothing else
    is derived.  From a crt.sh response the names that start with [*.] are
    discarded and every other name of the newline-separated fields is
    kept as it is. *)
Theorem wildcard_stripped_by_certspotter_discarded_by_crtsh :
  (forall (items : list json) (names : list (list string)),
      lists_dns_names items names ->
      exists found : gset string,
        SubdomainGathering.certspotter_domains (JArr items) = Ok found
        /\ (forall host, host ∈ found <->
                         exists name, name ∈ concat names
                                      /\ host = PyStr.lstrip "*." name)
        /\ (forall (c : ascii) (rest : string),
               c <> "*"%char -> c <> "."%char ->
               ("*." ++ String c rest) ∈ concat names ->
               String c rest ∈ found))
  /\ (forall (items : list json) (values : list string),
         has_name_values items values ->
         exists found : gset string,
           SubdomainGathering.crtsh_domains (JArr items) = Ok found
           /\ (forall name, name ∈ found <->
                            name ∈ concat (map (PyStr.split PyStr.nl) values)
                            /\ PyStr.startswith name "*." = false)).
Proof.
  split.
  - intros items names Hwf. eexists. split; [apply certspotter_domains_listed, Hwf|].
    assert (Hchar : forall host,
               host ∈ (list_to_set (map (PyStr.lstrip "*.") (concat names)) : gset string)
               <-> exists name, name ∈ concat names /\ host = PyStr.lstrip "*." name).
    { intros host. rewrite elem_of_list_to_set.
      change (map (PyStr.lstrip "*.") (concat names))
        with (PyStr.lstrip "*." <$> concat names).
      rewrite list_elem_of_fmap. split; intros [name [? ?]]; exists name; tauto. }
    split; [exact Hchar|].
    intros c rest Hstar Hdot Hin. apply Hchar.
    exists ("*." ++ String c rest). split; [exact Hin|].
    rewrite lstrip_wildcard_prefix. symmetry. apply lstrip_bare_name; assumption.
  - intros items values Hwf. eexists. split; [apply crtsh_domains_listed, Hwf|].
    intros name. rewrite elem_of_list_to_set, list_elem_of_In, List.filter_In.
    rewrite <- list_elem_of_In, negb_true_iff. reflexivity.
Qed.

Lemma wildcard_stripped_by_certspotter_discarded_by_crtsh_witness :
  (exists found : gset string,
      SubdomainGathering.certspotter_domains
        (JArr [JObj [("id", JStr "7"); ("dns_names", JArr [JStr "*.example.com";
                                                          JStr "www.example.com"])]])
      = Ok found
      /\ "example.com" ∈ found)
  /\ (exists found : gset string,
         SubdomainGathering.crtsh_domains
           (JArr [JObj [("name_value",
                         JStr ("*.example.com" ++ PyStr.nl ++ "www.example.com"))]])
         = Ok found
         /\ "www.example.com" ∈ found /\ "*.example.com" ∉ found).
Proof.
  destruct wildcard_stripped_by_certspotter_discarded_by_crtsh as [Hcert Hcrt].
  split.
  - destruct (Hcert [JObj [("id", JStr "7");
                           ("dns_names", JArr [JStr "*.example.com";
                                               JStr "www.example.com"])]]
                    [["*.example.com"; "www.example.com"]])
      as [found [Hrun [_ Hbare]]].
    + repeat constructor.
    + exists found. split; [exact Hrun|].
      apply (Hbare "e"%char "xample.com"); [discriminate | discriminate |].
      apply list_elem_of_In. vm_compute. left. reflexivity.
  - destruct (Hcrt [JObj [("name_value",
                           JStr ("*.example.com" ++ PyStr.nl ++ "www.example.com"))]]
                   ["*.example.com" ++ PyStr.nl ++ "www.example.com"])
      as [found [Hrun Hchar]].
    + repeat constructor.
    + exists found. split; [exact Hrun|]. split.
      * apply Hchar. split; [|reflexivity].
        apply list_elem_of_In. vm_compute. right. left. reflexivity.
      * intros Hin. apply Hchar in Hin as [_ Hpre]. discriminate Hpre.
Defined.

(** ** The audit records of the sources *)

Section Audit.
Context `{Environment}.

Definition response_path (self : SubdomainGathering.SubdomainGatherer)
           (subdir domain timestamp : string) : string :=
  PyStr.os_path_join (PyStr.os_path_join (SubdomainGathering.cache_dir self) subdir)
                     (domain ++ "_" ++ timestamp ++ "_response.txt").

Definition domains_path (self : SubdomainGathering.SubdomainGatherer)
           (subdir domain timestamp : string) : string :=
  PyStr.os_path_join (PyStr.os_path_join (SubdomainGathering.cache_dir self) subdir)
                     (domain ++ "_" ++ timestamp ++ "_domains.txt").

(** The state after [write_to_cache]: the clock was read once and the two
    files of the record, named after the domain and that reading, hold the
    response and the sorted hostnames. *)
Definition after_audit (self : SubdomainGathering.SubdomainGatherer)
           (subdir domain response : string) (domains : list string) (w : World)
  : World :=
  mkWorld (<[domains_path self subdir domain (now (clock w))
               := PyStr.join PyStr.nl (PyStr.sorted domains)]>
             (<[response_path self subdir domain (now (clock w)) := response]>
                (files w)))
          (events w) (requests w) (S (clock w)) (session w).

(** The state after the clock was read and nothing else happened. *)
Definition after_clock_reading (w : World) : World :=
  mkWorld (files w) (events w) (requests w) (S (clock w)) (session w).

(** How a source ends once the network has answered: it returns [value]
    after writing its record, or raises from the [open] of the record when
    the domain cannot name a file. *)
Definition audited {A} (self : SubdomainGathering.SubdomainGatherer)
           (subdir domain response : string) (domains : list string) (value : A)
           (w : World) : result A * World :=
  if PyStr.contains "/" domain
  then (Raise (FileNotFoundError (response_path self subdir domain (now (clock w)))),
        after_clock_reading w)
  else (Ok value, after_audit self subdir domain response domains w).

Lemma write_to_cache_run self subdir domain response domains w :
  SubdomainGathering.write_to_cache self subdir domain response domains w
  = audited self subdir domain response domains tt w.
Proof.
  unfold SubdomainGathering.write_to_cache, write_file_named, audited, bind, read_clock.
  cbn [files events requests clock session].
  destruct (PyStr.contains "/" domain); reflexivity.
Qed.







End Audit.

(** ** What each source returns

    The outcome of a source for a domain is decided by the answers of the
    network and by whether the domain can name the files of the audit
    record; the state only receives that record. *)

Section Sources.
Context `{Environment}.
Variable get_top_domains : list string -> result (list string).

Definition rate_limit_marker : string := "API count exceeded".

Definition dnsdumpster_outcome (domain : string) : result (string * list string) :=
  result_bind (dnsdumpster_cookie domain) (fun cookie =>
  result_bind (SubdomainGathering.second (PyStr.split "Set-Cookie: csrftoken=" cookie))
              (fun csrf_token =>
  result_bind (dnsdumpster_post domain csrf_token) (fun response_text =>
  Ok (response_text,
      map SubdomainGathering.dnsdumpster_cell (soup_cells response_text))))).

Definition certspotter_outcome (domain : string) : result (json * gset string) :=
  result_bind (certspotter_get domain) (fun response_json =>
  result_bind (SubdomainGathering.certspotter_domains response_json) (fun domains =>
  Ok (response_json, domains))).

Definition crtsh_outcome (domain : string) : result (json * gset string) :=
  result_bind (crtsh_get domain) (fun response_json =>
  result_bind (SubdomainGathering.crtsh_domains response_json) (fun domains =>
  Ok (response_json, domains))).

Definition hackertarget_outcome (domain : string) : result (string * gset string) :=
  result_bind (hackertarget_get domain) (fun response_text =>
  Ok (response_text,
      if PyStr.contains rate_limit_marker response_text then ∅
      else SubdomainGathering.hackertarget_domains response_text)).

Definition result_fmap {A B} (f : A -> B) (r : result A) : result B :=
  match r with
  | Ok a => Ok (f a)
  | Raise e => Raise e
  end.

Lemma recording_run {A} self subdir domain response domains (value : A) w :
  (SubdomainGathering.write_to_cache self subdir domain response domains ;;;
   ret value) w
  = audited self subdir domain response domains value w.
Proof.
  unfold bind. rewrite write_to_cache_run. unfold audited.
  destruct (PyStr.contains "/" domain); reflexivity.
Qed.

Lemma dnsdumpster_scraping_run self domain w :
  SubdomainGathering.dnsdumpster_scraping self domain w
  = match dnsdumpster_outcome domain with
    | Ok (response_text, domains) =>
        audited self "dnsdumpster_req_logs" domain response_text domains domains w
    | Raise e => (Raise e, w)
    end.
Proof.
  unfold SubdomainGathering.dnsdumpster_scraping, dnsdumpster_outcome.
  unfold bind at 1, lift.
  destruct (dnsdumpster_cookie domain) as [cookie|e]; [|reflexivity].
  cbn [result_bind]. unfold bind at 1.
  destruct (SubdomainGathering.second _) as [token|e]; [|reflexivity].
  cbn [result_bind]. unfold bind at 1.
  destruct (dnsdumpster_post domain token) as [text|e]; [|reflexivity].
  cbn [result_bind]. apply recording_run.
Qed.

Lemma certspotter_scraping_run self domain w :
  SubdomainGathering.certspotter_scraping self domain w
  = match certspotter_outcome domain with
    | Ok (response_json, domains) =>
        audited self "certspotter_req_logs" domain (json_dumps response_json)
                (elements domains) domains w
    | Raise e => (Raise e, w)
    end.
Proof.
  unfold SubdomainGathering.certspotter_scraping, certspotter_outcome.
  unfold bind at 1, lift.
  destruct (certspotter_get domain) as [response|e]; [|reflexivity].
  cbn [result_bind]. unfold bind at 1.
  destruct (SubdomainGathering.certspotter_domains response); [|reflexivity].
  cbn [result_bind]. apply recording_run.
Qed.

Lemma crtsh_scraping_run self domain w :
  SubdomainGathering.crtsh_scraping self domain w
  = match crtsh_outcome domain with
    | Ok (response_json, domains) =>
        audited self "crtsh_req_logs" domain (json_dumps response_json)
                (elements domains) domains w
    | Raise e => (Raise e, w)
    end.
Proof.
  unfold SubdomainGathering.crtsh_scraping, crtsh_outcome.
  unfold bind at 1, lift.
  destruct (crtsh_get domain) as [response|e]; [|reflexivity].
  cbn [result_bind]. unfold bind at 1.
  destruct (SubdomainGathering.crtsh_domains response); [|reflexivity].
  cbn [result_bind]. apply recording_run.
Qed.

(** The state after the rate-limit warning: one more log line. *)
Definition after_rate_limit (w : World) : World :=
  mkWorld (files w)
          (events w ++
           [EvLog SubdomainGathering.logger_name "WARNING"
              "SKIP HackerTarget | Daily Limit Exceeded. (Possible bypass: new IP or use hackertarget.com API Key)"])%list
          (requests w) (clock w) (session w).

Lemma hackertarget_scraping_run self domain w :
  SubdomainGathering.hackertarget_scraping self domain w
  = match hackertarget_outcome domain with
    | Ok (response_text, domains) =>
        if PyStr.contains rate_limit_marker response_text
        then (Ok domains, after_rate_limit w)
        else audited self "hackertarget_req_logs" domain response_text
                     (elements domains) domains w
    | Raise e => (Raise e, w)
    end.
Proof.
  unfold SubdomainGathering.hackertarget_scraping, hackertarget_outcome.
  unfold bind at 1, lift.
  destruct (hackertarget_get domain) as [text|e]; [|reflexivity].
  cbn [result_bind]. fold rate_limit_marker.
  destruct (PyStr.contains rate_limit_marker text); [reflexivity|].
  apply recording_run.
Qed.

(** The outcomes of the five awaitables of a domain, in the order of the
    task list. *)
Definition source_outcomes (domain : string) : list (result (gset string)) :=
  [ result_fmap (fun o => list_to_set (snd o)) (dnsdumpster_outcome domain);
    result_fmap snd (certspotter_outcome domain);
    result_fmap snd (hackertarget_outcome domain);
    result_fmap snd (crtsh_outcome domain);
    result_fmap list_to_set (get_top_domains [domain]) ].

(** For a domain that can name a file, what each awaitable returns or
    raises is its outcome, in every state. *)
Lemma tasks_outcomes self domain :
  PyStr.contains "/" domain = false ->
  Forall2 (fun task outcome => forall w, fst (task w) = outcome)
          (SubdomainGathering.tasks get_top_domains self domain)
          (source_outcomes domain).
Proof.
  intros Hname. unfold SubdomainGathering.tasks, source_outcomes.
  constructor;
    [|constructor; [|constructor; [|constructor; [|constructor; [|constructor]]]]];
    intros w.
  - unfold SubdomainGathering.fmap_M, bind. rewrite dnsdumpster_scraping_run.
    unfold audited. rewrite Hname.
    destruct (dnsdumpster_outcome domain) as [[text domains]|e]; reflexivity.
  - rewrite certspotter_scraping_run. unfold audited. rewrite Hname.
    destruct (certspotter_outcome domain) as [[response domains]|e]; reflexivity.
  - rewrite hackertarget_scraping_run. unfold audited. rewrite Hname.
    destruct (hackertarget_outcome domain) as [[text domains]|e]; [|reflexivity].
    destruct (PyStr.contains rate_limit_marker text); reflexivity.
  - rewrite crtsh_scraping_run. unfold audited. rewrite Hname.
    destruct (crtsh_outcome domain) as [[response domains]|e]; reflexivity.
  - unfold SubdomainGathering.fmap_M, bind, lift.
    destruct (get_top_domains [domain]); reflexivity.
Qed.

(** For a domain that cannot name a file, the CertSpotter awaitable raises
    in every state: from the network, from the response, or from the
    [open] of its record. *)
Lemma certspotter_scraping_needs_a_file_name self domain w :
  PyStr.contains "/" domain = true ->
  exists e, fst (SubdomainGathering.certspotter_scraping self domain w) = Raise e.
Proof.
  intros Hname. rewrite certspotter_scraping_run. unfold audited. rewrite Hname.
  destruct (certspotter_outcome domain) as [[response domains]|e]; eexists; reflexivity.
Qed.

End Sources.

(** ** The fan-out and the join *)

Section Gather.
Context {A : Type}.

Lemma gather_go_raises (tasks : list (M A)) (i : nat) (task : M A) :
  tasks !! i = Some task ->
  (forall w, exists e, fst (task w) = Raise e) ->
  forall (order : list nat) (done : gmap nat A) (w : World),
    i ∈ order -> done !! i = None ->
    exists e, fst (SubdomainGathering.gather_go tasks order done w) = Raise e.
Proof.
  intros Hi Hraise. induction order as [|j order IH]; intros done w Hin Hdone.
  - inversion Hin.
  - cbn. destruct (decide (j = i)) as [->|Hne].
    + rewrite Hdone, Hi. unfold bind. destruct (Hraise w) as [e He].
      destruct (task w) as [[a|e'] w']; cbn in He; [discriminate|].
      exists e'. reflexivity.
    + assert (Hin' : i ∈ order) by (inversion Hin; congruence).
      destruct (done !! j) eqn:Hj; [apply IH; assumption|].
      destruct (tasks !! j) as [tj|] eqn:Htj; [|apply IH; assumption].
      unfold bind. destruct (tj w) as [[a|e'] w'] eqn:Hrun.
      * apply IH; [assumption|]. rewrite lookup_insert_ne; assumption.
      * exists e'. reflexivity.
Qed.

(** One failing awaitable makes the join raise, whatever the completion
    order and whatever the other awaitables do. *)
Lemma gather_raises (order : list nat) (tasks : list (M A)) (task : M A) :
  task ∈ tasks ->
  (forall w, exists e, fst (task w) = Raise e) ->
  forall w, exists e, fst (SubdomainGathering.gather order tasks w) = Raise e.
Proof.
  intros Hin Hraise w. apply list_elem_of_lookup in Hin as [i Hi].
  unfold SubdomainGathering.gather, bind.
  destruct (gather_go_raises tasks i task Hi Hraise
              (order ++ seq 0 (length tasks)) ∅ w) as [e He].
  - apply elem_of_app. right. apply elem_of_seq.
    apply lookup_lt_Some in Hi. lia.
  - apply lookup_empty.
  - destruct (SubdomainGathering.gather_go _ _ _ w) as [[done|e'] w'];
      cbn in He; [discriminate|]. exists e'. reflexivity.
Qed.

Lemma gather_go_returns (tasks : list (M A)) (values : list A) :
  Forall2 (fun task v => forall w, fst (task w) = Ok v) tasks values ->
  forall (order : list nat) (done : gmap nat A) (w : World),
    (forall i a, done !! i = Some a -> values !! i = Some a) ->
    exists done' w',
      SubdomainGathering.gather_go tasks order done w = (Ok done', w')
      /\ (forall i a, done' !! i = Some a -> values !! i = Some a)
      /\ (forall i, is_Some (done !! i) -> is_Some (done' !! i))
      /\ (forall i, i ∈ order -> (i < length tasks)%nat -> is_Some (done' !! i)).
Proof.
  intros Hpure. induction order as [|j order IH]; intros done w Hdone.
  - exists done, w. split; [reflexivity|]. split; [exact Hdone|].
    split; [auto|]. intros i Hi. inversion Hi.
  - cbn. destruct (done !! j) as [a|] eqn:Hj.
    + destruct (IH done w Hdone) as [done' [w' [Hrun [Hval [Hmono Hcov]]]]].
      exists done', w'. split; [exact Hrun|]. split; [exact Hval|].
      split; [exact Hmono|].
      intros i Hi Hlt. apply elem_of_cons in Hi as [->|Hi]; [|auto].
      apply Hmono. rewrite Hj. eauto.
    + destruct (tasks !! j) as [tj|] eqn:Htj.
      * destruct (Forall2_lookup_l _ _ _ _ _ Hpure Htj) as [v [Hv Hok]].
        unfold bind. specialize (Hok w).
        destruct (tj w) as [[a|e] w1] eqn:Hrun; cbn in Hok; [|discriminate].
        inversion Hok; subst a.
        destruct (IH (<[j := v]> done) w1) as [done' [w' [Hgo [Hval [Hmono Hcov]]]]].
        { intros i a. destruct (decide (i = j)) as [->|Hne].
          - rewrite lookup_insert_eq. intros [= <-]. exact Hv.
          - rewrite lookup_insert_ne by congruence. apply Hdone. }
        exists done', w'. split; [exact Hgo|]. split; [exact Hval|]. split.
        -- intros i Hi. apply Hmono. destruct (decide (i = j)) as [->|Hne].
           ++ rewrite lookup_insert_eq. eauto.
           ++ rewrite lookup_insert_ne by congruence. exact Hi.
        -- intros i Hi Hlt. apply elem_of_cons in Hi as [->|Hi]; [|auto].
           apply Hmono. rewrite lookup_insert_eq. eauto.
      * destruct (IH done w Hdone) as [done' [w' [Hrun [Hval [Hmono Hcov]]]]].
        exists done', w'. split; [exact Hrun|]. split; [exact Hval|].
        split; [exact Hmono|].
        intros i Hi Hlt. apply elem_of_cons in Hi as [->|Hi]; [|auto].
        apply lookup_ge_None in Htj. lia.
Qed.

Lemma omap_lookup_seq (f : nat -> option A) (values : list A) (n : nat) :
  n = length values ->
  (forall i, (i < length values)%nat -> f i = values !! i) ->
  omap f (seq 0 n) = values.
Proof.
  intros ->.
  induction values as [|v values IH] using rev_ind; intros Hf; [reflexivity|].
  rewrite length_app. cbn. rewrite Nat.add_1_r, seq_S, omap_app. cbn.
  rewrite IH.
  - rewrite Hf by (rewrite length_app; cbn; lia).
    rewrite lookup_app_r by lia. rewrite Nat.sub_diag. reflexivity.
  - intros i Hi. rewrite Hf by (rewrite length_app; cbn; lia).
    apply lookup_app_l. exact Hi.
Qed.

(** When every awaitable returns, the join returns their values in the
    order of the task list, whatever the completion order. *)
Lemma gather_returns (order : list nat) (tasks : list (M A)) (values : list A) :
  Forall2 (fun task v => forall w, fst (task w) = Ok v) tasks values ->
  forall w, fst (SubdomainGathering.gather order tasks w) = Ok values.
Proof.
  intros Hpure w. unfold SubdomainGathering.gather, bind.
  assert (Hlen : length tasks = length values) by (eapply Forall2_length, Hpure).
  destruct (gather_go_returns tasks values Hpure
              (order ++ seq 0 (length tasks)) ∅ w)
    as [done [w' [Hrun [Hval [_ Hcov]]]]].
  { intros i a Hi. rewrite lookup_empty in Hi. discriminate. }
  rewrite Hrun. cbn. f_equal.
  apply omap_lookup_seq; [exact Hlen|]. intros i Hi.
  assert (Hlt : (i < length tasks)%nat) by (rewrite Hlen; exact Hi).
  destruct (Hcov i) as [a Ha].
  - apply elem_of_app. right. apply elem_of_seq. split; [lia | exact Hlt].
  - exact Hlt.
  - rewrite Ha. symmetry. apply Hval. exact Ha.
Qed.

End Gather.

(** ** Aggregating over the input domains *)

Lemma fold_M_raises {A S} (body : S -> A -> M S) (l : list A) (x : A) :
  x ∈ l ->
  (forall acc w, exists e, fst (body acc x w) = Raise e) ->
  forall acc w, exists e, fst (fold_M body l acc w) = Raise e.
Proof.
  intros Hin Hraise. induction l as [|y l IH]; intros acc w; [inversion Hin|].
  cbn. unfold bind. apply elem_of_cons in Hin as [<-|Hin].
  - destruct (Hraise acc w) as [e He].
    destruct (body acc x w) as [[acc'|e'] w']; cbn in He; [discriminate|].
    exists e'. reflexivity.
  - destruct (body acc y w) as [[acc'|e'] w'].
    + apply IH. exact Hin.
    + exists e'. reflexivity.
Qed.

Lemma fold_M_union {A} (body : gset string -> A -> M (gset string))
      (g : A -> gset string) (l : list A) :
  (forall x, x ∈ l -> forall acc w, exists w', body acc x w = (Ok (acc ∪ g x), w')) ->
  forall acc w, exists w', fold_M body l acc w = (Ok (acc ∪ ⋃ (g <$> l)), w').
Proof.
  induction l as [|x l IH]; intros Hbody acc w.
  - exists w. cbn. unfold ret. rewrite (right_id_L ∅ (∪)). reflexivity.
  - cbn. unfold bind. destruct (Hbody x (list_elem_of_here _ _) acc w) as [w1 Hrun].
    rewrite Hrun.
    destruct (IH (fun y Hy => Hbody y (list_elem_of_further _ _ _ Hy)) (acc ∪ g x) w1)
      as [w' Hrest].
    exists w'. rewrite Hrest. rewrite (assoc_L (∪)). reflexivity.
Qed.



(** The hostnames an outcome contributes. *)
Definition found (outcome : result (gset string)) : gset string :=
  match outcome with
  | Ok hosts => hosts
  | Raise _ => ∅
  end.

Section Aggregate.
Context `{Environment}.
Variable get_top_domains : list string -> result (list string).

(** What one domain adds to the aggregate when its five awaitables
    return: their hostnames and the domain itself. *)
Definition discovered (domain : string) : gset string :=
  foldl (fun acc r => acc ∪ r) ∅ (found <$> source_outcomes get_top_domains domain)
  ∪ {[ domain ]}.

Definition every_task_returns (self : SubdomainGathering.SubdomainGatherer)
           (domain : string) : Prop :=
  forall task, task ∈ SubdomainGathering.tasks get_top_domains self domain ->
               forall w, is_ok (fst (task w)) = true.

Lemma outcomes_ok_tasks_return self domain :
  PyStr.contains "/" domain = false ->
  Forall (fun outcome => is_ok outcome = true) (source_outcomes get_top_domains domain) ->
  every_task_returns self domain.
Proof.
  intros Hname Hok task Hin w.
  apply list_elem_of_lookup in Hin as [i Hi].
  destruct (Forall2_lookup_l _ _ _ _ _
              (tasks_outcomes get_top_domains self domain Hname) Hi)
    as [outcome [Ho Hfst]].
  rewrite Hfst. rewrite Forall_lookup in Hok. apply (Hok i). exact Ho.
Qed.

(** The awaitables of a domain cannot all return unless the domain can
    name a file: CertSpotter writes its record whenever it returns. *)
Lemma every_task_returns_names_a_file self domain :
  every_task_returns self domain -> PyStr.contains "/" domain = false.
Proof.
  intros Hret. destruct (PyStr.contains "/" domain) eqn:Hname; [|reflexivity].
  pose proof (Hret (SubdomainGathering.certspotter_scraping self domain)) as Hok.
  specialize (Hok ltac:(right; left) (mkWorld ∅ [] 0 0 NoSession)).
  destruct (certspotter_scraping_needs_a_file_name self domain
              (mkWorld ∅ [] 0 0 NoSession) Hname) as [e He].
  rewrite He in Hok. discriminate Hok.
Qed.

Lemma tasks_values_aux (tasks : list (M (gset string)))
      (outcomes : list (result (gset string))) :
  Forall2 (fun task outcome => forall w, fst (task w) = outcome) tasks outcomes ->
  (forall task, task ∈ tasks -> forall w, is_ok (fst (task w)) = true) ->
  Forall2 (fun task v => forall w, fst (task w) = Ok v) tasks (found <$> outcomes).
Proof.
  induction 1 as [|task outcome tasks outcomes Hhead _ IH]; intros Hok; cbn.
  - constructor.
  - constructor.
    + intros w. pose proof (Hok task (list_elem_of_here _ _) w) as Hw.
      rewrite Hhead in Hw |- *. destruct outcome; [reflexivity | discriminate].
    + apply IH. intros t Ht. apply Hok. right. exact Ht.
Qed.

Lemma tasks_values self domain :
  every_task_returns self domain ->
  Forall2 (fun task v => forall w, fst (task w) = Ok v)
          (SubdomainGathering.tasks get_top_domains self domain)
          (found <$> source_outcomes get_top_domains domain).
Proof.
  intros Hret. apply tasks_values_aux; [|exact Hret].
  apply tasks_outcomes, (every_task_returns_names_a_file self domain Hret).
Qed.

Lemma gather_one_returns self acc domain w :
  every_task_returns self domain ->
  exists w',
    SubdomainGathering.gather_one get_top_domains self acc domain w
    = (Ok (acc ∪ discovered domain), w').
Proof.
  intros Hret. unfold SubdomainGathering.gather_one, bind.
  pose proof (gather_returns (completion_order domain) _ _ (tasks_values self domain Hret) w)
    as Hg.
  destruct (SubdomainGathering.gather _ _ w) as [results w1].
  cbn in Hg. subst results.
  unfold SubdomainGathering.write_subdomain_results, write_file_named, bind, read_clock.
  rewrite (every_task_returns_names_a_file self domain Hret).
  eexists. reflexivity.
Qed.

Lemma gather_one_raises self acc domain task w :
  task ∈ SubdomainGathering.tasks get_top_domains self domain ->
  (forall w, exists e, fst (task w) = Raise e) ->
  exists e, fst (SubdomainGathering.gather_one get_top_domains self acc domain w) = Raise e.
Proof.
  intros Hin Hraise. unfold SubdomainGathering.gather_one, bind.
  destruct (gather_raises (completion_order domain) _ task Hin Hraise w) as [e He].
  destruct (SubdomainGathering.gather _ _ w) as [[results|e'] w1];
    cbn in He; [discriminate|]. exists e'. reflexivity.
Qed.

(** When every awaitable of every domain returns, [gather_subdomains]
    returns the union of what the domains add. *)
Lemma gather_subdomains_returns self (domains : gset string) w :
  (forall domain, domain ∈ domains -> every_task_returns self domain) ->
  exists w',
    SubdomainGathering.gather_subdomains get_top_domains self domains w
    = (Ok (⋃ (discovered <$> elements domains)), w').
Proof.
  intros Hret. unfold SubdomainGathering.gather_subdomains, bind.
  destruct (fold_M_union (SubdomainGathering.gather_one get_top_domains self)
              discovered (elements domains)) with (acc := (∅ : gset string)) (w := w)
    as [w1 Hfold].
  { intros d Hd acc w0. apply gather_one_returns, Hret, elem_of_elements, Hd. }
  rewrite Hfold. rewrite (left_id_L ∅ (∪)). eexists. reflexivity.
Qed.

(** One awaitable of one domain that raises makes [gather_subdomains]
    raise. *)
Lemma gather_subdomains_raises self (domains : gset string) domain task w :
  domain ∈ domains ->
  task ∈ SubdomainGathering.tasks get_top_domains self domain ->
  (forall w, exists e, fst (task w) = Raise e) ->
  exists e,
    fst (SubdomainGathering.gather_subdomains get_top_domains self domains w) = Raise e.
Proof.
  intros Hd Hin Hraise. unfold SubdomainGathering.gather_subdomains, bind.
  destruct (fold_M_raises (SubdomainGathering.gather_one get_top_domains self)
              (elements domains) domain) with (acc := (∅ : gset string)) (w := w)
    as [e He].
  - apply elem_of_elements, Hd.
  - intros acc w0. eapply gather_one_raises; eassumption.
  - destruct (fold_M _ _ _ w) as [[all|e'] w1]; cbn in He; [discriminate|].
    exists e'. reflexivity.
Qed.



End Aggregate.

(** ** Failures and rate limits in the fan-out *)

(** The name [get_top_domains] bound to the method of the utility class. *)
Definition top_domains `{Environment} (domains : list string) : result (list string) :=
  fst (Utility.get_top_domains scenario_B_utility domains Demo.world0).

(** Scenario A: CertSpotter knows [a.example.com], crt.sh knows
    [b.example.com], HackerTarget is rate-limited. *)
Definition scenario_A_env : Environment :=
  Demo.env (fun _ _ => Raise (TimeoutError "timed out"))
           (fun _ => Ok ["a.example.com"])
           (fun _ => Ok "API count exceeded")
           (fun _ => Ok ["b.example.com"]).

(** As scenario A, but CertSpotter cannot be reached and HackerTarget
    answers. *)
Definition failing_source_env : Environment :=
  Demo.env (fun _ _ => Raise (TimeoutError "timed out"))
           (fun _ => Raise (ClientConnectorError "Cannot connect to host api.certspotter.com:443"))
           (fun _ => Ok "a.example.com,192.0.2.1")
           (fun _ => Ok ["b.example.com"]).

Example scenario_A :
  fst (SubdomainGathering.gather_subdomains (H := scenario_A_env)
         (top_domains (H := scenario_A_env)) gatherer {[ "example.com" ]} Demo.world0)
  = Ok {[ "example.com"; "a.example.com"; "b.example.com" ]}.
Proof. vm_compute. reflexivity. Qed.



Lemma scenario_A_every_task_returns (domain : string) :
  domain ∈ ({[ "example.com" ]} : gset string) ->
  every_task_returns (H := scenario_A_env) (top_domains (H := scenario_A_env))
                     gatherer domain.
Proof.
  intros Hd. apply elem_of_singleton in Hd. subst domain.
  apply outcomes_ok_tasks_return; [reflexivity | repeat constructor].
Qed.


(** ** The domain itself in its subdomain set *)




(** ** Audit records *)






(** ** The orchestrator *)

Definition zero_candidates_line : event :=
  EvLog "WAFAbuser" "INFO"
        (WafAbuser.Fore_GREEN ++ "Found 0 possible non-WAF IPs" ++ WafAbuser.Fore_RESET).


(** What lines 131 to 133 of [run] do with a third stage that returns the
    empty set: [run] returns right after logging that no candidate was
    found. *)
Lemma run_halts_on_empty_filter_result :
  forall (E : Environment)
         (subdomain_gathering ip_gathering : gset string -> M (gset string))
         (filter_out_waf_ips : Utility.UtilityFunctions -> gset string -> M (gset string))
         (names_order : gset string -> list string)
         (rows_order : gset (string * Z) -> list (string * Z))
         (self : WafAbuser.WAFAbuser) (subdomains ips : gset string)
         (w w1 w2 w3 : World),
    WafAbuser.domains_only (WafAbuser.args self) = false ->
    WafAbuser.find_subdomains subdomain_gathering self
      (WafAbuser.get_input_domains self) (snd (emit (EvPrint WafAbuser.banner) w))
    = (Ok subdomains, w1) ->
    WafAbuser.find_ips ip_gathering self subdomains w1 = (Ok ips, w2) ->
    WafAbuser.filter_ips filter_out_waf_ips self ips w2 = (Ok ∅, w3) ->
    WafAbuser.run subdomain_gathering ip_gathering filter_out_waf_ips
                  names_order rows_order self w
    = (Ok tt, snd (emit zero_candidates_line w3)).
Proof.
  intros E sg ipg flt names rows self subdomains ips w w1 w2 w3 Hmode Hsub Hips Hflt.
  unfold WafAbuser.run. unfold bind at 1. cbn [emit].
  unfold bind at 1. cbn [emit snd] in Hsub. rewrite Hsub. rewrite Hmode.
  unfold bind at 1. rewrite Hips.
  unfold bind at 1. rewrite Hflt.
  reflexivity.
Qed.








Definition fixed_resolver (hosts : gset string) : M (gset string) := ret {[ "1.2.3.5" ]}.

(** The filter with its reference list already loaded: lines 53 and 54 over
    the list of scenario B. *)
Definition loaded_filter (self : Utility.UtilityFunctions) (ips : gset string)
  : M (gset string) :=
  lift (Utility.exclude_listed (H := scenario_B_env) ["1.2.3.0/24"] ips).

(** * Further properties of the code *)

(** ** The membership test of the range filter *)

(** X1.  When every listed line parses as a network and every candidate
    parses as an address, lines 53 and 54 of the filter return exactly the
    candidates whose address lies in none of the listed networks: a
    candidate is dropped when some network of its family contains its
    address, and kept otherwise. *)
Theorem exclude_listed_keeps_exactly_uncovered :
  forall (E : Environment) (cidrs : list string) (nets : list IPNetwork)
         (ips : gset string),
    result_map ip_network cidrs = Ok nets ->
    (forall ip, ip ∈ ips -> is_ok (ip_address ip) = true) ->
    exists kept : gset string,
      Utility.exclude_listed cidrs ips = Ok kept
      /\ (forall ip, ip ∈ kept <->
                     ip ∈ ips
                     /\ exists a, ip_address ip = Ok a
                                  /\ ~ (exists n, n ∈ nets /\ covers n a)).
Proof.
  intros E cidrs nets ips Hnets Hips.
  apply (exclude_listed_keeps_exactly_uncovered_aux cidrs nets ips Hnets Hips).
Qed.

Lemma exclude_listed_keeps_exactly_uncovered_witness :
  exists kept : gset string,
    Utility.exclude_listed (H := scenario_B_env) ["1.2.3.0/24"]
      {[ "1.2.3.5"; "5.6.7.8" ]} = Ok kept
    /\ "5.6.7.8" ∈ kept /\ "1.2.3.5" ∉ kept.
Proof.
  destruct (exclude_listed_keeps_exactly_uncovered scenario_B_env ["1.2.3.0/24"]
              [mkNet IPv4 16909056 24] {[ "1.2.3.5"; "5.6.7.8" ]})
    as [kept [Hrun Hchar]].
  - reflexivity.
  - exact scenario_B_candidates_parse.
  - exists kept. split; [exact Hrun|]. split.
    + apply Hchar. split; [set_solver|].
      exists (mkAddr IPv4 84281096 None). split; [reflexivity|].
      intros [n [Hn [_ [_ Hr]]]]. apply list_elem_of_singleton in Hn. subst n.
      vm_compute in Hr. destruct Hr as [_ Hr]. apply Hr. reflexivity.
    + intros Hin. apply Hchar in Hin as [_ [a [Ha Hnot]]].
      apply Hnot. exists (mkNet IPv4 16909056 24).
      split; [apply list_elem_of_singleton; reflexivity|].
      vm_compute in Ha. inversion Ha; subst a.
      repeat split; vm_compute; discriminate.
Defined.

(** X2.  A listed line that does not parse as a network makes the filter
    raise, whatever the candidates, even none; with a list that parses, a
    candidate that does not parse as an address makes it raise. *)
Theorem exclude_listed_raises_on_unparsable_input :
  forall (E : Environment) (cidrs : list string) (ips : gset string),
    (exists line e, line ∈ cidrs /\ ip_network line = Raise e)
    \/ ((exists nets, result_map ip_network cidrs = Ok nets)
        /\ exists ip e, ip ∈ ips /\ ip_address ip = Raise e) ->
    exists e', Utility.exclude_listed cidrs ips = Raise e'.
Proof.
  intros E cidrs ips [[line [e [Hline Hraise]]] | [[nets Hnets] [ip [e [Hip Hraise]]]]];
    unfold Utility.exclude_listed.
  - destruct (result_map_raises ip_network cidrs line e Hline Hraise) as [e' ->].
    exists e'. reflexivity.
  - rewrite Hnets. cbn.
    match goal with
    | |- context [result_map ?f (elements ips)] =>
        destruct (result_map_raises f (elements ips) ip e) as [e' ->]
    end.
    + apply elem_of_elements, Hip.
    + rewrite Hraise. reflexivity.
    + exists e'. reflexivity.
Qed.

(** A reference file whose last line is blank: the loader's list ends
    with the empty string. *)
Lemma exclude_listed_raises_on_unparsable_input_witness :
  map PyStr.strip
      (tail (PyStr.splitlines ("ranges" ++ PyStr.nl ++ "1.2.3.0/24" ++ PyStr.nl
                                ++ " " ++ PyStr.nl)))
  = ["1.2.3.0/24"; ""]
  /\ exists e', Utility.exclude_listed (H := scenario_B_env) ["1.2.3.0/24"; ""] ∅
                = Raise e'.
Proof.
  split; [reflexivity|].
  apply (exclude_listed_raises_on_unparsable_input scenario_B_env).
  left. exists "", ValueError. split; [|reflexivity].
  apply list_elem_of_In. right. left. reflexivity.
Defined.

(** X3.  What the filter returns is a subset of the candidates, and
    filtering it again with the same list returns it unchanged. *)
Theorem exclude_listed_idempotent :
  forall (E : Environment) (cidrs : list string) (ips kept : gset string),
    Utility.exclude_listed cidrs ips = Ok kept ->
    kept ⊆ ips /\ Utility.exclude_listed cidrs kept = Ok kept.
Proof.
  intros E cidrs ips kept Hrun.
  assert (Hparts : exists nets,
             result_map ip_network cidrs = Ok nets
             /\ forall ip, ip ∈ ips -> is_ok (ip_address ip) = true).
  { unfold Utility.exclude_listed in Hrun.
    destruct (result_map ip_network cidrs) as [nets|e]; [|discriminate].
    exists nets. split; [reflexivity|]. cbn in Hrun.
    match type of Hrun with
    | context [result_map ?f (elements ips)] =>
        destruct (result_map f (elements ips)) as [ks|e] eqn:Hks; [|discriminate]
    end.
    intros ip Hip. apply elem_of_elements in Hip.
    destruct (result_map_inv _ _ _ Hks ip Hip) as [y Hy].
    destruct (ip_address ip); [reflexivity | discriminate]. }
  destruct Hparts as [nets [Hnets Hips]].
  destruct (exclude_listed_keeps_exactly_uncovered_aux cidrs nets ips Hnets Hips)
    as [kept1 [Hrun1 Hchar1]].
  rewrite Hrun in Hrun1. inversion Hrun1; subst kept1.
  assert (Hsub : kept ⊆ ips) by (intros ip Hip; apply Hchar1 in Hip; tauto).
  split; [exact Hsub|].
  destruct (exclude_listed_keeps_exactly_uncovered_aux cidrs nets kept Hnets)
    as [kept2 [Hrun2 Hchar2]].
  { intros ip Hip. apply Hips, Hsub, Hip. }
  rewrite Hrun2. f_equal. apply set_eq. intros ip. rewrite Hchar2. split.
  - tauto.
  - intros Hip. split; [exact Hip|]. apply Hchar1 in Hip. tauto.
Qed.

Lemma exclude_listed_idempotent_witness :
  ({[ "5.6.7.8" ]} : gset string) ⊆ {[ "1.2.3.5"; "5.6.7.8" ]}
  /\ Utility.exclude_listed (H := scenario_B_env) ["1.2.3.4/31"] {[ "5.6.7.8" ]}
     = Ok {[ "5.6.7.8" ]}.
Proof.
  apply (exclude_listed_idempotent scenario_B_env ["1.2.3.4/31"]
           {[ "1.2.3.5"; "5.6.7.8" ]} {[ "5.6.7.8" ]}).
  vm_compute. reflexivity.
Defined.

(** ** The comparison loop *)

Lemma fold_M_preserves {A S} (P : World -> Prop) (body : S -> A -> M S) (l : list A) :
  (forall acc x w, P w -> P (snd (body acc x w))) ->
  forall acc w, P w -> P (snd (fold_M body l acc w)).
Proof.
  intros Hbody. induction l as [|x l IH]; intros acc w Hw; [exact Hw|].
  cbn. unfold bind. pose proof (Hbody acc x w Hw) as Hstep.
  destruct (body acc x w) as [[acc'|e] w']; cbn in Hstep; [|exact Hstep].
  apply IH, Hstep.
Qed.

Section Comparison.
Context `{Environment}.

Lemma get_page_content_session (url : string) (w : World) :
  session (snd (Utility.get_page_content url w)) = session w.
Proof.
  destruct w as [fs ev rq ck ss].
  unfold Utility.get_page_content, bind, get_session, try_except,
    Utility.session_get_text.
  destruct ss; cbn; try reflexivity.
  destruct (page rq url) as [text|e]; cbn; [reflexivity|].
  destruct (Utility.connector_or_timeout e); reflexivity.
Qed.

Lemma compare_two_pages_session (original check_url : string) (w : World) :
  session (snd (Utility.compare_two_pages original check_url w)) = session w.
Proof.
  unfold Utility.compare_two_pages, bind.
  pose proof (get_page_content_session check_url w) as Hs.
  destruct (Utility.get_page_content check_url w) as [[content|e] w'];
    cbn in Hs; [|exact Hs].
  destruct (negb (Utility.truthy content)); [exact Hs|].
  unfold lift. destruct (similarity _ _ _) as [ratio|e]; [|exact Hs].
  destruct (int_of_float _); exact Hs.
Qed.

Lemma compare_one_session self original out ip (w : World) :
  session (snd (WafAbuser.compare_one self original out ip w)) = session w.
Proof.
  unfold WafAbuser.compare_one, bind.
  pose proof (compare_two_pages_session original ip w) as Hs.
  destruct (Utility.compare_two_pages original ip w) as [[r|e] w'];
    cbn in Hs; [|exact Hs].
  destruct (_ >? _)%Z; exact Hs.
Qed.

Lemma compare_domain_session self ips out domain (w : World) :
  session w = SessionOpen ->
  session (snd (WafAbuser.compare_domain self ips out domain w)) = SessionOpen.
Proof.
  intros Hw. unfold WafAbuser.compare_domain, bind.
  pose proof (get_page_content_session domain w) as Hs. rewrite Hw in Hs.
  destruct (Utility.get_page_content domain w) as [[content|e] w'];
    cbn in Hs; [|exact Hs].
  destruct content as [content|]; [|exact Hs].
  apply (fold_M_preserves (fun w => session w = SessionOpen)); [|exact Hs].
  intros acc x w0 Hw0. rewrite compare_one_session. exact Hw0.
Qed.

Lemma compare_domain_answered self ips out domain content (w : World) :
  session w = SessionOpen ->
  page (requests w) domain = Ok content ->
  WafAbuser.compare_domain self ips out domain w
  = fold_M (WafAbuser.compare_one self content) (elements ips) out
           (after_request domain w).
Proof.
  intros Hs Hp. unfold WafAbuser.compare_domain, bind.
  rewrite (get_page_content_answers domain content w Hs Hp). reflexivity.
Qed.

End Comparison.

(** X4.  When the request for a domain's own page fails with a connection
    error or a timeout, the domain is skipped: the confirmed set is
    unchanged and no candidate is requested for it (one request, logged
    as skipped). *)
Theorem baseline_failure_skips_domain :
  forall (E : Environment) (self : WafAbuser.WAFAbuser) (filtered_ips : gset string)
         (confirmed : gset (string * Z)) (domain : string) (e : exn) (w : World),
    session w = SessionOpen ->
    page (requests w) domain = Raise e ->
    Utility.connector_or_timeout e = true ->
    WafAbuser.compare_domain self filtered_ips confirmed domain w
    = (Ok confirmed, after_skipped_request domain e w)
    /\ requests (after_skipped_request domain e w) = S (requests w).
Proof.
  intros E self ips confirmed domain e w Hs Hp Hc. split; [|reflexivity].
  unfold WafAbuser.compare_domain, bind.
  rewrite (get_page_content_skips domain e w Hs Hp Hc). reflexivity.
Qed.

Lemma baseline_failure_skips_domain_witness :
  WafAbuser.compare_domain (H := scenario_D_env) (abuser 70)
    {[ "5.6.7.8"; "9.9.9.9" ]} ∅ "example.com" open_world
  = (Ok ∅, after_skipped_request "example.com" (TimeoutError "timed out") open_world)
  /\ requests (after_skipped_request "example.com" (TimeoutError "timed out")
                 open_world) = 1%nat.
Proof.
  apply (baseline_failure_skips_domain scenario_D_env (abuser 70)
           {[ "5.6.7.8"; "9.9.9.9" ]} ∅ "example.com" (TimeoutError "timed out")
           open_world); reflexivity.
Defined.

(** X5.  [compare_ips] leaves the session of the utility object closed,
    whether it returns or raises, whatever the pages answer. *)
Theorem compare_ips_closes_session :
  forall (E : Environment) (self : WafAbuser.WAFAbuser)
         (input_domains filtered_ips : gset string) (w : World),
    session (snd (WafAbuser.compare_ips self input_domains filtered_ips w))
    = SessionClosed.
Proof.
  intros E self doms ips w.
  unfold WafAbuser.compare_ips, WafAbuser.info, Utility.__aenter__.
  unfold bind at 1. cbn [emit]. unfold bind at 1. cbn [set_session].
  unfold finally.
  match goal with
  | |- context [fold_M ?body ?l ?init ?w0] =>
      pose proof (fold_M_preserves (fun w => session w = SessionOpen) body l) as Hfold;
      specialize (Hfold (fun out x w1 Hw1 => compare_domain_session self ips out x w1 Hw1)
                        init w0 eq_refl);
      destruct (fold_M body l init w0) as [r w1]
  end.
  cbn in Hfold. unfold Utility.__aexit__, bind, get_session, set_session.
  rewrite Hfold. reflexivity.
Qed.

(** Every page answers with a server disconnect, which is neither a
    connection error nor a timeout. *)
Definition disconnecting_env : Environment :=
  Demo.env (fun n _ => match n with
                       | O => Ok "<html><body>origin</body></html>"
                       | _ => Raise (OtherError "ServerDisconnectedError")
                       end)
           (fun _ => Ok []) (fun _ => Ok "") (fun _ => Ok []).

(** X6.  An exception of a candidate's request other than a connection
    error or a timeout is not turned into a score: it leaves
    [compare_ips], and no confirmed set is returned. *)
Theorem unexpected_fetch_error_leaves_compare_ips :
  forall (E : Environment) (self : WafAbuser.WAFAbuser) (domain ip content : string)
         (e : exn) (w : World),
    page (requests w) domain = Ok content ->
    page (S (requests w)) ip = Raise e ->
    Utility.connector_or_timeout e = false ->
    fst (WafAbuser.compare_ips self {[ domain ]} {[ ip ]} w) = Raise e.
Proof.
  intros E self domain ip content e w Hdom Hip Hc.
  unfold WafAbuser.compare_ips, WafAbuser.info, Utility.__aenter__.
  unfold bind at 1. cbn [emit]. unfold bind at 1. cbn [set_session].
  unfold finally. rewrite !elements_singleton. cbn [fold_M].
  unfold bind at 1.
  rewrite (compare_domain_answered self {[ ip ]} ∅ domain content); [|reflexivity|exact Hdom].
  rewrite elements_singleton. cbn [fold_M].
  unfold bind at 1. unfold WafAbuser.compare_one. unfold bind at 1.
  unfold Utility.compare_two_pages. unfold bind at 1.
  rewrite (get_page_content_propagates ip e); [|reflexivity|exact Hip|exact Hc].
  reflexivity.
Qed.

Lemma unexpected_fetch_error_leaves_compare_ips_witness :
  fst (WafAbuser.compare_ips (H := disconnecting_env) (abuser 70)
         {[ "example.com" ]} {[ "5.6.7.8" ]} Demo.world0)
  = Raise (OtherError "ServerDisconnectedError").
Proof.
  apply (unexpected_fetch_error_leaves_compare_ips disconnecting_env (abuser 70)
           "example.com" "5.6.7.8" "<html><body>origin</body></html>"
           (OtherError "ServerDisconnectedError") Demo.world0); reflexivity.
Defined.

(** ** Malformed answers of the sources *)

Lemma string_app_nil_r (s : string) : s ++ "" = s.
Proof.
  induction s as [|c s IH]; [reflexivity|].
  change (String c (s ++ "") = String c s). f_equal. exact IH.
Qed.

Lemma string_of_snoc (l : list ascii) (c : ascii) (s : string) :
  string_of_list_ascii (l ++ [c]) ++ s = string_of_list_ascii l ++ String c s.
Proof.
  induction l as [|d l IH]; [reflexivity|].
  change (String d (string_of_list_ascii (l ++ [c]) ++ s)
          = String d (string_of_list_ascii l ++ String c s)).
  f_equal. exact IH.
Qed.

(** A string in which the separator does not occur is split into itself
    alone. *)
Lemma split_go_absent (sep : string) (acc : list ascii) (s : string) :
  PyStr.contains sep s = false ->
  PyStr.split_go sep 0 acc s = [string_of_list_ascii (rev acc) ++ s].
Proof.
  revert acc. induction s as [|c s IH]; intros acc Habsent.
  - cbn. rewrite string_app_nil_r. reflexivity.
  - cbn [PyStr.contains] in Habsent. apply orb_false_iff in Habsent as [Hpre Hrest].
    cbn [PyStr.split_go]. rewrite Hpre. rewrite (IH (c :: acc) Hrest).
    cbn [rev]. rewrite string_of_snoc. reflexivity.
Qed.

Lemma split_absent (sep s : string) :
  PyStr.contains sep s = false -> PyStr.split sep s = [s].
Proof. intros Habsent. unfold PyStr.split. rewrite split_go_absent by assumption. reflexivity. Qed.



(** An environment that differs in the cookie DNSDumpster sets. *)
Definition with_cookie (E : Environment) (cookie : string -> result string)
  : Environment :=
  {| similarity := @similarity E;
     ip_address := @ip_address E;
     ip_network := @ip_network E;
     tldextract := @tldextract E;
     page := @page E;
     now := @now E;
     json_dumps := @json_dumps E;
     soup_cells := @soup_cells E;
     dnsdumpster_cookie := cookie;
     dnsdumpster_post := @dnsdumpster_post E;
     certspotter_get := @certspotter_get E;
     hackertarget_get := @hackertarget_get E;
     crtsh_get := @crtsh_get E;
     completion_order := @completion_order E;
     stdin := @stdin E |}.

(** DNSDumpster sets no [csrftoken] cookie: the cookie jar gives [None]. *)
Definition no_token_env : Environment := with_cookie scenario_A_env (fun _ => Ok "None").


(** CertSpotter answers with an error object instead of a list. *)
Definition certspotter_error_env : Environment :=
  {| similarity := @similarity scenario_A_env;
     ip_address := @ip_address scenario_A_env;
     ip_network := @ip_network scenario_A_env;
     tldextract := @tldextract scenario_A_env;
     page := @page scenario_A_env;
     now := @now scenario_A_env;
     json_dumps := @json_dumps scenario_A_env;
     soup_cells := @soup_cells scenario_A_env;
     dnsdumpster_cookie := @dnsdumpster_cookie scenario_A_env;
     dnsdumpster_post := @dnsdumpster_post scenario_A_env;
     certspotter_get := fun _ =>
       Ok (JObj [("code", JStr "rate_limited");
                 ("message", JStr "You have exceeded the rate limit")]);
     hackertarget_get := @hackertarget_get scenario_A_env;
     crtsh_get := @crtsh_get scenario_A_env;
     completion_order := @completion_order scenario_A_env;
     stdin := @stdin scenario_A_env |}.

(** X7.  When the cookie DNSDumpster left does not contain
    [Set-Cookie: csrftoken=], the token extraction raises [IndexError]:
    the source raises before its query is posted and before anything is
    written, and [gather_subdomains] raises for every set of domains that
    contains the domain. *)
Theorem dnsdumpster_missing_token_raises_IndexError :
  forall (E : Environment) (get_top_domains : list string -> result (list string))
         (self : SubdomainGathering.SubdomainGatherer) (domains : gset string)
         (domain cookie : string) (w : World),
    dnsdumpster_cookie domain = Ok cookie ->
    PyStr.contains "Set-Cookie: csrftoken=" cookie = false ->
    SubdomainGathering.dnsdumpster_scraping self domain w = (Raise IndexError, w)
    /\ (domain ∈ domains ->
        exists e,
          fst (SubdomainGathering.gather_subdomains get_top_domains self domains w)
          = Raise e).
Proof.
  intros E top self domains domain cookie w Hcookie Habsent.
  assert (Hrun : forall w0, SubdomainGathering.dnsdumpster_scraping self domain w0
                            = (Raise IndexError, w0)).
  { intros w0. rewrite dnsdumpster_scraping_run. unfold dnsdumpster_outcome.
    rewrite Hcookie. cbn [result_bind]. rewrite (split_absent _ _ Habsent).
    reflexivity. }
  split; [apply Hrun|]. intros Hd.
  apply (gather_subdomains_raises top self domains domain
           (SubdomainGathering.fmap_M list_to_set
              (SubdomainGathering.dnsdumpster_scraping self domain))).
  - exact Hd.
  - left.
  - intros w0. exists IndexError.
    unfold SubdomainGathering.fmap_M, bind. rewrite Hrun. reflexivity.
Qed.

Lemma dnsdumpster_missing_token_raises_IndexError_witness :
  SubdomainGathering.dnsdumpster_scraping (H := no_token_env) gatherer
    "example.com" Demo.world0 = (Raise IndexError, Demo.world0)
  /\ exists e,
       fst (SubdomainGathering.gather_subdomains (H := no_token_env)
              (top_domains (H := no_token_env)) gatherer {[ "example.com" ]}
              Demo.world0) = Raise e.
Proof.
  destruct (dnsdumpster_missing_token_raises_IndexError no_token_env
              (top_domains (H := no_token_env)) gatherer {[ "example.com" ]}
              "example.com" "None" Demo.world0) as [Hrun Hall];
    [reflexivity | reflexivity |].
  split; [exact Hrun|]. apply Hall, elem_of_singleton. reflexivity.
Defined.



(** X9.  A JSON object in place of the expected list (the error payload
    of the service), or an element without the expected key, is not
    degraded to an empty result: CertSpotter and crt.sh raise [TypeError]
    for a non-empty object and [KeyError] for an element that lacks
    [dns_names] or [name_value], and write no audit record. *)
Theorem json_sources_raise_on_unexpected_shape :
  forall (E : Environment) (self : SubdomainGathering.SubdomainGatherer)
         (domain : string) (w : World),
    (forall field fields,
        certspotter_get domain = Ok (JObj (field :: fields)) ->
        SubdomainGathering.certspotter_scraping self domain w = (Raise TypeError, w))
    /\ (forall field fields,
           crtsh_get domain = Ok (JObj (field :: fields)) ->
           SubdomainGathering.crtsh_scraping self domain w = (Raise TypeError, w))
    /\ (forall fields rest,
           certspotter_get domain = Ok (JArr (JObj fields :: rest)) ->
           PyJson.assoc "dns_names" fields = None ->
           SubdomainGathering.certspotter_scraping self domain w
           = (Raise (KeyError "dns_names"), w))
    /\ (forall fields rest,
           crtsh_get domain = Ok (JArr (JObj fields :: rest)) ->
           PyJson.assoc "name_value" fields = None ->
           SubdomainGathering.crtsh_scraping self domain w
           = (Raise (KeyError "name_value"), w)).
Proof.
  intros E self domain w. split; [|split; [|split]].
  - intros [k v] fields Hget. rewrite certspotter_scraping_run.
    unfold certspotter_outcome. rewrite Hget. reflexivity.
  - intros [k v] fields Hget. rewrite crtsh_scraping_run.
    unfold crtsh_outcome. rewrite Hget. reflexivity.
  - intros fields rest Hget Hkey. rewrite certspotter_scraping_run.
    unfold certspotter_outcome. rewrite Hget. cbn [result_bind].
    unfold SubdomainGathering.certspotter_domains. cbn. rewrite Hkey. reflexivity.
  - intros fields rest Hget Hkey. rewrite crtsh_scraping_run.
    unfold crtsh_outcome. rewrite Hget. cbn [result_bind].
    unfold SubdomainGathering.crtsh_domains. cbn. rewrite Hkey. reflexivity.
Qed.

Lemma json_sources_raise_on_unexpected_shape_witness :
  SubdomainGathering.certspotter_scraping (H := certspotter_error_env) gatherer
    "example.com" Demo.world0 = (Raise TypeError, Demo.world0).
Proof.
  destruct (json_sources_raise_on_unexpected_shape certspotter_error_env gatherer
              "example.com" Demo.world0) as [Hobj _].
  apply (Hobj ("code", JStr "rate_limited")
              [("message", JStr "You have exceeded the rate limit")]).
  reflexivity.
Defined.

(** ** The aggregate and its dump files *)

(** An environment that differs in the completion order of the tasks. *)
Definition with_completion_order (E : Environment) (order : string -> list nat)
  : Environment :=
  {| similarity := @similarity E;
     ip_address := @ip_address E;
     ip_network := @ip_network E;
     tldextract := @tldextract E;
     page := @page E;
     now := @now E;
     json_dumps := @json_dumps E;
     soup_cells := @soup_cells E;
     dnsdumpster_cookie := @dnsdumpster_cookie E;
     dnsdumpster_post := @dnsdumpster_post E;
     certspotter_get := @certspotter_get E;
     hackertarget_get := @hackertarget_get E;
     crtsh_get := @crtsh_get E;
     completion_order := order;
     stdin := @stdin E |}.

Definition all_domains_path (self : SubdomainGathering.SubdomainGatherer)
           (timestamp : string) : string :=
  PyStr.os_path_join (SubdomainGathering.cache_dir self)
                     ("ALL_DOMAINS_" ++ timestamp ++ ".txt").


Definition dump (hosts : gset string) : string :=
  PyStr.join PyStr.nl (PyStr.sorted (elements hosts)).

Section Dumps.
Context `{Environment}.
Variable get_top_domains : list string -> result (list string).

Lemma every_task_returns_outcomes self domain :
  every_task_returns get_top_domains self domain ->
  Forall (fun outcome => is_ok outcome = true) (source_outcomes get_top_domains domain).
Proof.
  intros Hret. apply Forall_lookup. intros i outcome Ho.
  destruct (Forall2_lookup_r _ _ _ _ _
              (tasks_outcomes get_top_domains self domain
                 (every_task_returns_names_a_file get_top_domains self domain Hret)) Ho)
    as [task [Ht Hfst]].
  rewrite <- (Hfst Demo.world0). apply Hret.
  apply list_elem_of_lookup. eauto.
Qed.



End Dumps.

(** X10.  When every awaitable returns, the set [gather_subdomains]
    returns does not depend on the order in which the awaitables of a
    domain complete, nor on the state it starts from. *)
Theorem aggregate_independent_of_completion_order :
  forall (E : Environment) (order : string -> list nat)
         (get_top_domains : list string -> result (list string))
         (self : SubdomainGathering.SubdomainGatherer) (domains : gset string)
         (w w' : World),
    (forall domain, domain ∈ domains ->
                    every_task_returns (H := E) get_top_domains self domain) ->
    fst (SubdomainGathering.gather_subdomains (H := with_completion_order E order)
           get_top_domains self domains w')
    = fst (SubdomainGathering.gather_subdomains (H := E)
             get_top_domains self domains w).
Proof.
  intros E order top self domains w w' Hret.
  destruct (gather_subdomains_returns (H := E) top self domains w Hret) as [w1 ->].
  destruct (gather_subdomains_returns (H := with_completion_order E order)
              top self domains w') as [w2 ->]; [|reflexivity].
  intros domain Hd.
  apply (outcomes_ok_tasks_return (H := with_completion_order E order)).
  - apply (every_task_returns_names_a_file (H := E) top self domain), Hret, Hd.
  - apply (every_task_returns_outcomes (H := E) top self domain), Hret, Hd.
Qed.

Lemma aggregate_independent_of_completion_order_witness :
  fst (SubdomainGathering.gather_subdomains
         (H := with_completion_order scenario_A_env (fun _ => [4; 2; 0; 1; 3]%nat))
         (top_domains (H := scenario_A_env)) gatherer {[ "example.com" ]} open_world)
  = fst (SubdomainGathering.gather_subdomains (H := scenario_A_env)
           (top_domains (H := scenario_A_env)) gatherer {[ "example.com" ]}
           Demo.world0).
Proof.
  apply (aggregate_independent_of_completion_order scenario_A_env
           (fun _ => [4; 2; 0; 1; 3]%nat) (top_domains (H := scenario_A_env))
           gatherer {[ "example.com" ]} Demo.world0 open_world).
  exact scenario_A_every_task_returns.
Defined.



(** The set of [example.com] in scenario A. *)
Example scenario_A_discovered :
  discovered (H := scenario_A_env) (top_domains (H := scenario_A_env)) "example.com"
  = {[ "example.com"; "a.example.com"; "b.example.com" ]}.
Proof. vm_compute. reflexivity. Qed.

(** Scenario A, the aggregate dump as text. *)
Example scenario_A_dump :
  dump {[ "example.com"; "a.example.com"; "b.example.com" ]}
  = "a.example.com" ++ PyStr.nl ++ "b.example.com" ++ PyStr.nl ++ "example.com".
Proof. vm_compute. reflexivity. Qed.

(** X12.  For an empty set of domains [gather_subdomains] queries no
    source: it returns the empty set, and the only change of the state is
    the empty [ALL_DOMAINS] file and one reading of the clock. *)
Theorem gather_subdomains_of_no_domain :
  forall (E : Environment) (get_top_domains : list string -> result (list string))
         (self : SubdomainGathering.SubdomainGatherer) (w : World),
    SubdomainGathering.gather_subdomains get_top_domains self ∅ w
    = (Ok ∅,
       mkWorld (<[all_domains_path self (now (clock w)) := ""]> (files w))
               (events w) (requests w) (S (clock w)) (session w)).
Proof.
  intros E top self w. unfold SubdomainGathering.gather_subdomains.
  rewrite elements_empty. reflexivity.
Qed.

(** ** Reporting and the exit status *)

Lemma for_each_emit {A} (f : A -> event) (l : list A) (w : World) :
  for_each l (fun x => emit (f x)) w
  = (Ok tt, mkWorld (files w) (events w ++ map f l)%list (requests w) (clock w)
                    (session w)).
Proof.
  revert w. induction l as [|x l IH]; intros w.
  - cbn. rewrite app_nil_r. destruct w; reflexivity.
  - cbn [for_each]. unfold bind at 1. cbn [emit]. rewrite IH. cbn.
    rewrite <- app_assoc. reflexivity.
Qed.

Definition report_path (self : WafAbuser.WAFAbuser) (timestamp : string) : string :=
  PyStr.os_path_join (PyStr.os_path_join (WafAbuser.project_dir self) "output")
                     ("possible_WAF_bypass_" ++ timestamp ++ ".txt").

Definition nothing_found_lines (self : WafAbuser.WAFAbuser) : list event :=
  [EvLog "WAFAbuser" "WARNING"
         ("5. Found 0 pages with similarity > "
            ++ pretty (WafAbuser.similarity_rate (WafAbuser.args self)) ++ "%");
   EvLog "WAFAbuser" "INFO"
         "You can reduce the similarity percentage [--similarity_rate 70]"].

(** The lines of a report whose rows come in the order [rows]. *)
Definition found_lines (rows : list (string * Z)) : list event :=
  [EvLog "WAFAbuser" "INFO"
         ("5. " ++ WafAbuser.Fore_GREEN ++ "Found possible IPs:" ++ WafAbuser.Fore_RESET);
   EvPrint (WafAbuser.row_format "IP" "Similarity")]
  ++ map (fun r => EvPrint (WafAbuser.report_row r)) rows.

(** The lines of a discovery-only run that found [count] names and
    printed them in the order [names]. *)
Definition discovery_lines (self : WafAbuser.WAFAbuser) (count : nat)
           (names : list string) : list event :=
  [EvLog "WAFAbuser" "INFO"
         (WafAbuser.Fore_GREEN ++ "Found " ++ pretty count
            ++ " domains/subdomains:" ++ WafAbuser.Fore_RESET)]
  ++ map EvPrint names
  ++ [EvLog "WAFAbuser" "INFO"
            ("File output: "
               ++ PyStr.os_path_join (WafAbuser.project_dir self) "cache")].

(** X13.  [output_results] writes the report file only when the confirmed
    set is not empty: for an empty set it logs two lines and leaves files
    and clock as they were; otherwise it prints a header and one row per
    confirmed pair and writes the same rows, one per line and in the same
    order, to [output/possible_WAF_bypass_<time>.txt].  The order of the
    rows is the iteration order of the set: some arrangement of the
    confirmed pairs, each once. *)
Theorem report_written_only_when_confirmed :
  forall (E : Environment) (rows_order : gset (string * Z) -> list (string * Z))
         (self : WafAbuser.WAFAbuser)
         (similarity_output : gset (string * Z)) (w : World),
    rows_order similarity_output ≡ₚ elements similarity_output ->
    (similarity_output = ∅ ->
     WafAbuser.output_results rows_order self similarity_output w
     = (Ok tt, mkWorld (files w) (events w ++ nothing_found_lines self)%list
                       (requests w) (clock w) (session w)))
    /\ (similarity_output <> ∅ ->
        exists rows,
          rows ≡ₚ elements similarity_output
          /\ WafAbuser.output_results rows_order self similarity_output w
             = (Ok tt,
                mkWorld (<[report_path self (now (clock w))
                             := PyStr.join PyStr.nl (map WafAbuser.report_row rows)]>
                           (files w))
                        (events w ++ found_lines rows)%list
                        (requests w) (S (clock w)) (session w))).
Proof.
  intros E rows_order self out w Horder. unfold WafAbuser.output_results.
  split; intros Hout.
  - rewrite bool_decide_eq_true_2 by exact Hout.
    unfold WafAbuser.warning, WafAbuser.info, bind, emit. cbn.
    rewrite <- app_assoc. reflexivity.
  - exists (rows_order out). split; [exact Horder|].
    rewrite bool_decide_eq_false_2 by exact Hout.
    unfold WafAbuser.info. unfold bind at 1. cbn [emit].
    unfold bind at 1. cbn [emit]. unfold bind at 1.
    rewrite (for_each_emit (fun r => EvPrint (WafAbuser.report_row r))). cbn.
    unfold found_lines. rewrite <- !app_assoc. reflexivity.
Qed.

Definition two_confirmed : gset (string * Z) :=
  {[ ("5.6.7.8", 100%Z); ("9.9.9.9", 83%Z) ]}.

(** Two confirmed pairs, met in the reverse of their listing order. *)
Lemma report_written_only_when_confirmed_witness :
  WafAbuser.output_results (H := scenario_C_env) (fun s => reverse (elements s))
    (abuser 70) ∅ Demo.world0
  = (Ok tt, mkWorld ∅ (nothing_found_lines (abuser 70)) 0 0 NoSession)
  /\ exists rows,
       rows ≡ₚ elements two_confirmed
       /\ WafAbuser.output_results (H := scenario_C_env) (fun s => reverse (elements s))
            (abuser 70) two_confirmed Demo.world0
          = (Ok tt,
             mkWorld {[ "/opt/waf-abuser/output/possible_WAF_bypass_20240101_000000.txt"
                        := PyStr.join PyStr.nl (map WafAbuser.report_row rows) ]}
                     (found_lines rows) 0 1 NoSession).
Proof.
  destruct (report_written_only_when_confirmed scenario_C_env
              (fun s => reverse (elements s)) (abuser 70) ∅ Demo.world0)
    as [Hempty _]; [apply reverse_Permutation|].
  destruct (report_written_only_when_confirmed scenario_C_env
              (fun s => reverse (elements s)) (abuser 70) two_confirmed Demo.world0)
    as [_ Hfound]; [apply reverse_Permutation|].
  split.
  - rewrite Hempty by reflexivity. reflexivity.
  - destruct Hfound as [rows [Hperm Hrun]].
    + intros Heq. assert (Hin : ("5.6.7.8", 100%Z) ∈ two_confirmed).
      { apply elem_of_union. left. apply elem_of_singleton. reflexivity. }
      rewrite Heq in Hin. apply elem_of_empty in Hin. exact Hin.
    + exists rows. split; [exact Hperm|]. rewrite Hrun. reflexivity.
Defined.

(** X14.  In discovery-only mode [run] ends after the first stage: it logs
    the number of names, prints each once, in the iteration order of the
    set, logs where the files are, and returns.  Resolution, filtering and
    comparison are not entered, whatever they would do: files, clock and
    page requests stay as discovery left them. *)
Theorem discovery_only_ends_after_stage_1 :
  forall (E : Environment)
         (subdomain_gathering ip_gathering : gset string -> M (gset string))
         (filter_out_waf_ips : Utility.UtilityFunctions -> gset string -> M (gset string))
         (names_order : gset string -> list string)
         (rows_order : gset (string * Z) -> list (string * Z))
         (self : WafAbuser.WAFAbuser) (subdomains : gset string) (w w1 : World),
    names_order subdomains ≡ₚ elements subdomains ->
    WafAbuser.domains_only (WafAbuser.args self) = true ->
    WafAbuser.find_subdomains subdomain_gathering self
      (WafAbuser.get_input_domains self) (snd (emit (EvPrint WafAbuser.banner) w))
    = (Ok subdomains, w1) ->
    exists names,
      names ≡ₚ elements subdomains
      /\ WafAbuser.run subdomain_gathering ip_gathering filter_out_waf_ips
                       names_order rows_order self w
         = (Ok tt,
            mkWorld (files w1)
                    (events w1 ++ discovery_lines self (size subdomains) names)%list
                    (requests w1) (clock w1) (session w1)).
Proof.
  intros E sg ipg flt names_order rows_order self subdomains w w1 Horder Hmode Hsub.
  exists (names_order subdomains). split; [exact Horder|].
  unfold WafAbuser.run. unfold bind at 1. cbn [emit].
  unfold bind at 1. cbn [emit snd] in Hsub. rewrite Hsub. rewrite Hmode.
  unfold WafAbuser.info. unfold bind at 1. cbn [emit]. unfold bind at 1.
  rewrite (for_each_emit EvPrint). unfold emit, discovery_lines.
  cbn [files events requests clock session].
  rewrite <- !app_assoc. reflexivity.
Qed.

Definition discovery_only_abuser : WafAbuser.WAFAbuser :=
  {| WafAbuser.args :=
       {| WafAbuser.input_domain := Some "example.com";
          WafAbuser.file_domains := None;
          WafAbuser.similarity_rate := 70;
          WafAbuser.domains_only := true |};
     WafAbuser.utility := scenario_B_utility;
     WafAbuser.project_dir := "/opt/waf-abuser" |}.

(** Scenario A in discovery-only mode, with the repository's own first
    stage: three names are found, and printed here in the reverse of
    their listing order. *)
Lemma discovery_only_ends_after_stage_1_witness :
  exists w1 names,
    names ≡ₚ ["example.com"; "a.example.com"; "b.example.com"]
    /\ WafAbuser.run (H := scenario_A_env)
         (SubdomainGathering.gather_subdomains (H := scenario_A_env)
            (top_domains (H := scenario_A_env)) gatherer)
         fixed_resolver (Utility.filter_out_waf_ips (H := scenario_A_env))
         (fun s => reverse (elements s)) elements discovery_only_abuser Demo.world0
       = (Ok tt, mkWorld (files w1)
                         (events w1 ++ discovery_lines discovery_only_abuser 3 names)%list
                         (requests w1) (clock w1) (session w1)).
Proof.
  destruct (gather_subdomains_returns (H := scenario_A_env)
              (top_domains (H := scenario_A_env)) gatherer {[ "example.com" ]}
              (snd (WafAbuser.info "1. Gathering subdomains"
                      (snd (emit (EvPrint WafAbuser.banner) Demo.world0))))
              scenario_A_every_task_returns) as [w1 Hsub].
  assert (Hall : ⋃ (discovered (H := scenario_A_env) (top_domains (H := scenario_A_env))
                      <$> elements ({[ "example.com" ]} : gset string))
                 = {[ "example.com"; "a.example.com"; "b.example.com" ]})
    by (vm_compute; reflexivity).
  rewrite Hall in Hsub.
  destruct (discovery_only_ends_after_stage_1 scenario_A_env
              (SubdomainGathering.gather_subdomains (H := scenario_A_env)
                 (top_domains (H := scenario_A_env)) gatherer)
              fixed_resolver (Utility.filter_out_waf_ips (H := scenario_A_env))
              (fun s => reverse (elements s)) elements discovery_only_abuser
              {[ "example.com"; "a.example.com"; "b.example.com" ]} Demo.world0 w1)
    as [names [Hperm Hrun]].
  - apply reverse_Permutation.
  - reflexivity.
  - unfold WafAbuser.find_subdomains, bind. exact Hsub.
  - exists w1, names. split; [|exact Hrun].
    rewrite Hperm. apply NoDup_Permutation.
    + apply NoDup_elements.
    + repeat constructor; rewrite !list_elem_of_In; cbn; intuition discriminate.
    + intros name. rewrite elem_of_elements.
      rewrite !elem_of_union, !elem_of_singleton, !list_elem_of_In. cbn.
      intuition congruence.
Defined.

(** *** The script

    [main] builds the [WAFAbuser] object (its arguments) and awaits [run];
    the module-level block runs it, handles [KeyboardInterrupt] and
    [Exception], and ends with [sys.exit(0)].  The text of an exception,
    [str(e)], is given by [str_of_exn]. *)



Section Script.
Context `{Environment}.
Variable subdomain_gathering : gset string -> M (gset string).
Variable ip_gathering : gset string -> M (gset string).
Variable filter_out_waf_ips :
  Utility.UtilityFunctions -> gset string -> M (gset string).
Variable names_order : gset string -> list string.
Variable rows_order : gset (string * Z) -> list (string * Z).
Variable str_of_exn : exn -> string.
Variable utility : Utility.UtilityFunctions.
Variable project_dir : string.



End Script.











(** ** What a source leaves untouched, and what its failure costs *)

Lemma after_audit_frame `{Environment} self subdir domain response domains w
      (path : string) :
  path <> response_path self subdir domain (now (clock w)) ->
  path <> domains_path self subdir domain (now (clock w)) ->
  files (after_audit self subdir domain response domains w) !! path = files w !! path.
Proof.
  intros Hresp Hdoms. cbn.
  rewrite lookup_insert_ne by congruence.
  rewrite lookup_insert_ne by congruence. reflexivity.
Qed.

Lemma audited_frame `{Environment} {A} self subdir domain response domains
      (value : A) w (path : string) :
  path <> response_path self subdir domain (now (clock w)) ->
  path <> domains_path self subdir domain (now (clock w)) ->
  files (snd (audited self subdir domain response domains value w)) !! path
  = files w !! path.
Proof.
  intros Hresp Hdoms. unfold audited.
  destruct (PyStr.contains "/" domain); [reflexivity|].
  apply after_audit_frame; assumption.
Qed.

(** X16.  Whatever its source answers, a scraper changes no file but the
    two of its own audit record for this domain and this reading of the
    clock. *)
Theorem scraper_touches_only_its_record :
  forall (E : Environment) (self : SubdomainGathering.SubdomainGatherer)
         (domain path : string) (w : World),
    (path <> response_path self "dnsdumpster_req_logs" domain (now (clock w)) ->
     path <> domains_path self "dnsdumpster_req_logs" domain (now (clock w)) ->
     files (snd (SubdomainGathering.dnsdumpster_scraping self domain w)) !! path
     = files w !! path)
    /\ (path <> response_path self "certspotter_req_logs" domain (now (clock w)) ->
        path <> domains_path self "certspotter_req_logs" domain (now (clock w)) ->
        files (snd (SubdomainGathering.certspotter_scraping self domain w)) !! path
        = files w !! path)
    /\ (path <> response_path self "hackertarget_req_logs" domain (now (clock w)) ->
        path <> domains_path self "hackertarget_req_logs" domain (now (clock w)) ->
        files (snd (SubdomainGathering.hackertarget_scraping self domain w)) !! path
        = files w !! path)
    /\ (path <> response_path self "crtsh_req_logs" domain (now (clock w)) ->
        path <> domains_path self "crtsh_req_logs" domain (now (clock w)) ->
        files (snd (SubdomainGathering.crtsh_scraping self domain w)) !! path
        = files w !! path).
Proof.
  intros E self domain path w.
  rewrite dnsdumpster_scraping_run, certspotter_scraping_run,
    hackertarget_scraping_run, crtsh_scraping_run.
  destruct (dnsdumpster_outcome domain) as [[text1 doms1]|e1];
    destruct (certspotter_outcome domain) as [[resp2 doms2]|e2];
    destruct (hackertarget_outcome domain) as [[text3 doms3]|e3];
    destruct (crtsh_outcome domain) as [[resp4 doms4]|e4];
    try destruct (PyStr.contains rate_limit_marker text3);
    repeat match goal with
           | |- _ /\ _ => split
           | |- _ -> _ => intros ? ?
           end;
    first [ reflexivity | apply audited_frame; assumption ].
Qed.

Lemma scraper_touches_only_its_record_witness :
  files (snd (SubdomainGathering.crtsh_scraping (H := scenario_A_env) gatherer
                "example.com" scenario_B_world)) !! "data/PublicWAFs.txt"
  = files scenario_B_world !! "data/PublicWAFs.txt".
Proof.
  destruct (scraper_touches_only_its_record scenario_A_env gatherer "example.com"
              "data/PublicWAFs.txt" scenario_B_world) as [_ [_ [_ Hcrt]]].
  apply Hcrt; vm_compute; discriminate.
Defined.

(** X17.  With the discovery stage bound to [gather_subdomains], one
    awaitable that raises for one input domain ends the whole run with an
    exception: no address is resolved, filtered or compared. *)
Theorem failing_source_ends_the_run :
  forall (E : Environment) (get_top_domains : list string -> result (list string))
         (gatherer : SubdomainGathering.SubdomainGatherer)
         (ip_gathering : gset string -> M (gset string))
         (filter_out_waf_ips : Utility.UtilityFunctions -> gset string -> M (gset string))
         (names_order : gset string -> list string)
         (rows_order : gset (string * Z) -> list (string * Z))
         (self : WafAbuser.WAFAbuser) (domain : string) (task : M (gset string))
         (w : World),
    domain ∈ WafAbuser.get_input_domains self ->
    task ∈ SubdomainGathering.tasks get_top_domains gatherer domain ->
    (forall w', exists e, fst (task w') = Raise e) ->
    exists e,
      fst (WafAbuser.run (SubdomainGathering.gather_subdomains get_top_domains gatherer)
                         ip_gathering filter_out_waf_ips names_order rows_order self w)
      = Raise e.
Proof.
  intros E top g ipg flt names rows self domain task w Hd Hin Hraise.
  unfold WafAbuser.run. unfold bind at 1. cbn [emit].
  unfold bind at 1. unfold WafAbuser.find_subdomains, WafAbuser.info.
  unfold bind at 1. cbn [emit].
  match goal with
  | |- context [SubdomainGathering.gather_subdomains top g ?ds ?w0] =>
      destruct (gather_subdomains_raises top g ds domain task w0 Hd Hin Hraise)
        as [e He];
      destruct (SubdomainGathering.gather_subdomains top g ds w0) as [[all|e'] w1]
  end; cbn in He; [discriminate|].
  exists e'. reflexivity.
Qed.

Lemma failing_source_ends_the_run_witness :
  exists e,
    fst (WafAbuser.run (H := failing_source_env)
           (SubdomainGathering.gather_subdomains (H := failing_source_env)
              (top_domains (H := failing_source_env)) gatherer)
           fixed_resolver loaded_filter elements elements (abuser 70) Demo.world0)
    = Raise e.
Proof.
  apply (failing_source_ends_the_run failing_source_env
           (top_domains (H := failing_source_env)) gatherer fixed_resolver
           loaded_filter elements elements (abuser 70) "example.com"
           (SubdomainGathering.certspotter_scraping (H := failing_source_env)
              gatherer "example.com")).
  - change ("example.com" ∈ ({[ "example.com" ]} : gset string)).
    apply elem_of_singleton. reflexivity.
  - right. left.
  - intros w. eexists. rewrite certspotter_scraping_run. reflexivity.
Defined.

(** ** The names read off a DNSDumpster cell *)

Lemma drop_while_head (p : ascii -> bool) (s : string) (c : ascii) (rest : string) :
  PyStr.drop_while p s = String c rest -> p c = false.
Proof.
  induction s as [|d s IH]; cbn; [discriminate|].
  destruct (p d) eqn:Hd; [exact IH|]. intros [= <- _]. exact Hd.
Qed.

Lemma rev_drop_while_prefix (p : ascii -> bool) (l : list ascii) :
  exists tl,
    l = (rev (list_ascii_of_string
                (PyStr.drop_while p (string_of_list_ascii (rev l)))) ++ tl)%list.
Proof.
  induction l as [|c l IH] using rev_ind.
  - exists []. reflexivity.
  - rewrite rev_app_distr. cbn. destruct (p c).
    + destruct IH as [tl Htl]. exists (tl ++ [c])%list.
      rewrite app_assoc, <- Htl. reflexivity.
    + exists []. cbn. rewrite list_ascii_of_string_of_list_ascii.
      rewrite rev_involutive, app_nil_r. reflexivity.
Qed.

(** Stripping on the right leaves a prefix. *)
Lemma rstrip_prefix (chars s : string) :
  exists tl, s = PyStr.rstrip chars s ++ tl.
Proof.
  unfold PyStr.rstrip, PyStr.lstrip, PyStr.rev_string.
  destruct (rev_drop_while_prefix (fun c => PyStr.mem_char c chars)
              (list_ascii_of_string s)) as [tl Htl].
  exists (string_of_list_ascii tl).
  rewrite <- (string_of_list_ascii_of_string s) at 1. rewrite Htl at 1.
  clear Htl. generalize (rev (list_ascii_of_string
                                (PyStr.drop_while (fun c => PyStr.mem_char c chars)
                                   (string_of_list_ascii
                                      (rev (list_ascii_of_string s)))))).
  intros l. induction l as [|c l IH]; [reflexivity|].
  cbn [app string_of_list_ascii].
  change (String c (string_of_list_ascii (l ++ tl))
          = String c (string_of_list_ascii l ++ string_of_list_ascii tl)).
  f_equal. exact IH.
Qed.

Lemma rstrip_head (chars s : string) (c : ascii) (rest : string) :
  PyStr.rstrip chars s = String c rest -> exists rest', s = String c rest'.
Proof.
  intros Hr. destruct (rstrip_prefix chars s) as [tl Htl].
  rewrite Hr in Htl. exists (rest ++ tl). exact Htl.
Qed.

(** X18.  The name derived from a DNSDumpster cell never begins with a
    digit, a blank or a dot: such characters are stripped from the front
    of the cell text, so a host name that begins with a digit loses
    it. *)
Theorem dnsdumpster_cell_never_starts_with_digit :
  forall (text : string) (c : ascii) (rest : string),
    SubdomainGathering.dnsdumpster_cell text = String c rest ->
    PyStr.mem_char c "1234567890 ." = false.
Proof.
  intros text c rest Hcell. unfold SubdomainGathering.dnsdumpster_cell in Hcell.
  apply rstrip_head in Hcell as [rest1 Hstrip].
  unfold PyStr.strip_chars in Hstrip.
  apply rstrip_head in Hstrip as [rest2 Hl].
  unfold PyStr.lstrip in Hl.
  apply (drop_while_head _ _ _ _ Hl).
Qed.

Lemma dnsdumpster_cell_never_starts_with_digit_witness :
  SubdomainGathering.dnsdumpster_cell "3dprint.example.comHTTP: nginx"
  = "dprint.example.com"
  /\ PyStr.mem_char "d" "1234567890 ." = false.
Proof.
  split; [reflexivity|].
  apply (dnsdumpster_cell_never_starts_with_digit "3dprint.example.comHTTP: nginx"
           "d"%char "print.example.com").
  reflexivity.
Defined.
